(** * The approach-selection engine of the gesture-recognition demo

    A shallow embedding of [smolvlm gesture recognition/engine.py]:
    the configuration validator, the [PerformanceMonitor] class and the
    switching policy of [GestureRecognitionEngine].

    Conventions.
    - The configuration is what [json.load] returns, a tree of Python
      values ([value]); a JSON object keeps its keys in insertion order.
    - In [PerformanceMonitor] Python numbers are exact: an [int] is a
      [Z], a [float] is idealised as a rational [Q] (no rounding, no
      infinities).  Where a property is about the arithmetic itself, the
      averaging and the threshold test are given over an arbitrary
      arithmetic ([Numeric]): whatever [sum], [/] and the comparisons
      compute or raise.
    - The monitor is typed as its signature annotates it.  [__init__]
      stores its arguments unchecked; on arguments of other types the
      embedding has no engine ([NotModelled]).
    - A Python exception is a [Raise] result; the state reached when the
      exception is raised is kept, as in Python.
    - [time.time()], the logger and [print] act on an explicit [World];
      the clock is a wall clock, whose readings are any sequence.
    - The approach modules that [execute_static_mode] imports and calls
      are foreign code: what they do is a parameter ([Execution.Modules]),
      and a run is described by the journal of its events. *)

From stdpp Require Import base option list strings gmap.
From Stdlib Require Import ZArith QArith Qminmax Lia.

Set Default Proof Using "Type".
#[local] Set Warnings "-register-all".
Local Open Scope Z_scope.

(** ** Python values, exceptions and the primitives the module uses *)

Module Py.

(** [NotModelled] is no Python exception: it marks an input for which
    the embedding has no value (see [GestureRecognitionEngine.init]). *)
Inductive exn : Type :=
  | TypeError
  | AttributeError
  | IndexError
  | ZeroDivisionError
  | OverflowError
  | OSError
  | UnicodeDecodeError
  | NotModelled.

Inductive result (A : Type) : Type :=
  | Ok (a : A)
  | Raise (e : exn).
Arguments Ok {A} a.
Arguments Raise {A} e.

Inductive value : Type :=
  | VNone
  | VBool (b : bool)
  | VInt (z : Z)
  | VFloat (q : Q)
  | VStr (s : string)
  | VList (l : list value)
  | VDict (items : list (string * value)).

(** [d[k]] for a dict given by its items; a dict has each key once, and
    the lookup takes the first binding. *)
Fixpoint dict_lookup (items : list (string * value)) (k : string) : option value :=
  match items with
  | [] => None
  | (k', v) :: rest => if String.eqb k' k then Some v else dict_lookup rest k
  end.

Definition dict_keys (items : list (string * value)) : list string := items.*1.

(** [o.get(k, dflt)]: only a dict has the method. *)
Definition get (o : value) (k : string) (dflt : value) : result value :=
  match o with
  | VDict items => Ok (default dflt (dict_lookup items k))
  | _ => Raise AttributeError
  end.

(** [list(o.keys())]. *)
Definition keys (o : value) : result (list string) :=
  match o with
  | VDict items => Ok (dict_keys items)
  | _ => Raise AttributeError
  end.

(** [v == s] for a string literal or [str] variable [s]. *)
Definition eq_str (v : value) (s : string) : bool :=
  match v with
  | VStr t => String.eqb t s
  | _ => false
  end.

(** [v in [s1, ..., sn]] for a list of strings. *)
Definition in_strs (v : value) (l : list string) : bool := existsb (eq_str v) l.

(** [s in l] for a list of strings [l]. *)
Definition str_in_list (s : string) (l : list string) : bool := existsb (String.eqb s) l.

Fixpoint is_substring (s t : string) : bool :=
  String.prefix s t ||
  match t with
  | EmptyString => false
  | String _ t' => is_substring s t'
  end.

(** [s in c] for a [str] [s] and any container [c]. *)
Definition str_in (s : string) (c : value) : result bool :=
  match c with
  | VDict items => Ok (str_in_list s (dict_keys items))
  | VList l => Ok (existsb (λ v, eq_str v s) l)
  | VStr t => Ok (is_substring s t)
  | _ => Raise TypeError
  end.

Definition Qeqb (x y : Q) : bool := Qeq_bool x y.
Definition Qltb (x y : Q) : bool :=
  match (x ?= y)%Q with Lt => true | _ => false end.

(** [bool(v)]. *)
Definition truthy (v : value) : bool :=
  match v with
  | VNone => false
  | VBool b => b
  | VInt z => negb (z =? 0)
  | VFloat q => negb (Qeqb q 0)
  | VStr s => negb (String.eqb s EmptyString)
  | VList l => match l with [] => false | _ => true end
  | VDict items => match items with [] => false | _ => true end
  end.

(** The number a value stands for in arithmetic and comparisons
    ([bool] is a subclass of [int]). *)
Definition as_number (v : value) : result Q :=
  match v with
  | VBool b => Ok (if b then 1%Q else 0%Q)
  | VInt z => Ok (inject_Z z)
  | VFloat q => Ok q
  | _ => Raise TypeError
  end.

Definition as_int (v : value) : result Z :=
  match v with
  | VBool b => Ok (if b then 1 else 0)
  | VInt z => Ok z
  | _ => Raise TypeError
  end.

(** [x < v] for a float [x]. *)
Definition lt_value (x : Q) (v : value) : result bool :=
  match as_number v with
  | Ok y => Ok (Qltb x y)
  | Raise e => Raise e
  end.

(** [sum(l)] in exact arithmetic: the accumulator starts at 0 and runs
    left to right. *)
Definition sum (l : list Q) : Q := fold_left Qplus l 0%Q.

(** [len(l)]. *)
Definition len {A} (l : list A) : Z := Z.of_nat (length l).

(** [x / n] in exact arithmetic, for an integer divisor. *)
Definition truediv (x : Q) (n : Z) : result Q :=
  if n =? 0 then Raise ZeroDivisionError else Ok (x / inject_Z n)%Q.

(** [l[start:]] with Python's treatment of negative and large indices. *)
Definition slice_from {A} (start : Z) (l : list A) : list A :=
  let n := len l in
  let i := if start <? 0 then Z.max (start + n) 0 else Z.min start n in
  drop (Z.to_nat i) l.

(** [l[0]]. *)
Definition first {A} (l : list A) : result A :=
  match l with
  | [] => Raise IndexError
  | x :: _ => Ok x
  end.

End Py.
Export Py.

(** ** The world, and the monad of stateful, fallible code *)

Inductive log_record : Type :=
  | LogInvalidApproach (to_approach : string)
  | LogSwitchOnCooldown (cooldown : value)
  | LogSwitching (from_approach to_approach : string).

Inductive printed : Type :=
  | PrintBadMode
  | PrintInvalidApproach (approach : value)
  | PrintApproachNotFound (approach : value)
  | PrintDynamicDisabled.

(** [clock] gives the successive readings of [time.time()]; [ticks]
    counts the readings taken so far. *)
Record World : Type := mkWorld {
  clock : nat → Q;
  ticks : nat;
  log : list log_record;
  stdout : list printed
}.

Definition M (S A : Type) : Type := S → result A * S.

#[export] Instance result_ret : MRet result := λ A a, Ok a.
#[export] Instance result_bind : MBind result := λ A B k r,
  match r with
  | Ok a => k a
  | Raise e => Raise e
  end.

#[export] Instance M_ret {S} : MRet (M S) := λ A a s, (Ok a, s).
#[export] Instance M_bind {S} : MBind (M S) := λ A B k m s,
  match m s with
  | (Ok a, s') => k a s'
  | (Raise e, s') => (Raise e, s')
  end.

Definition lift {S A} (r : result A) : M S A := λ s, (r, s).

Definition time_time : M World Q :=
  λ w, (Ok (clock w (ticks w)),
        mkWorld (clock w) (S (ticks w)) (log w) (stdout w)).

Definition logger (r : log_record) : M World unit :=
  λ w, (Ok tt, mkWorld (clock w) (ticks w) (log w ++ [r]) (stdout w)).

Definition print (p : printed) : M World unit :=
  λ w, (Ok tt, mkWorld (clock w) (ticks w) (log w) (stdout w ++ [p])).

(** ** validate_config *)

Definition validate_config (config : value) : M World bool :=
  mode ← lift (get config "mode" VNone);
  if negb (in_strs mode ["static"; "dynamic"]) then
    print PrintBadMode;; mret false
  else
    static_ok ←
      (if eq_str mode "static" then
         approach ← lift (get config "approach" VNone);
         if negb (in_strs approach ["mediapipe"; "smolvlm"]) then
           print (PrintInvalidApproach approach);; mret false
         else
           approaches ← lift (get config "approaches" (VDict []));
           present ← lift (match approach with
                           | VStr a => str_in a approaches
                           | _ => Raise TypeError
                           end);
           if negb present then
             print (PrintApproachNotFound approach);; mret false
           else mret true
       else mret true);
    if negb static_ok then mret false
    else if eq_str mode "dynamic" then
      dynamic_config ← lift (get config "dynamic" (VDict []));
      enabled ← lift (get dynamic_config "enabled" VNone);
      if negb (truthy enabled) then
        print PrintDynamicDisabled;; mret false
      else mret true
    else mret true.

(** ** class PerformanceMonitor

    Typed as the source annotates it: [thresholds : Dict[str, float]],
    [window_size : int], samples [metrics : Dict[str, float]].  The
    [history] dict has four fixed keys and is a record of four lists.
    The arithmetic of this module is exact; [Numeric] below gives
    [get_average_metrics] and [should_switch] for any arithmetic. *)

Module PerformanceMonitor.

Record History : Type := mkHistory {
  latency_ms : list Q;
  cpu_percent : list Q;
  memory_mb : list Q;
  fps : list Q
}.

Record t : Type := mkMonitor {
  thresholds : gmap string Q;
  window_size : Z;
  history : History
}.

Record Averages : Type := mkAverages {
  avg_latency_ms : Q;
  avg_cpu_percent : Q;
  avg_memory_mb : Q;
  avg_fps : Q
}.

Definition init (thresholds : gmap string Q) (window_size : Z) : t :=
  mkMonitor thresholds window_size (mkHistory [] [] [] []).

(** [d.get(k, dflt)] on a dict of floats. *)
Definition get_float (d : gmap string Q) (k : string) (dflt : Q) : Q :=
  default dflt (d !! k).

(** One turn of the loop [for key in self.history]. *)
Definition trim (window_size : Z) (l : list Q) : list Q :=
  if len l >? window_size then slice_from (- window_size) l else l.

Definition record (self : t) (metrics : gmap string Q) : t :=
  let h := history self in
  let appended :=
    mkHistory (latency_ms h ++ [get_float metrics "latency_ms" 0])
              (cpu_percent h ++ [get_float metrics "cpu_percent" 0])
              (memory_mb h ++ [get_float metrics "memory_mb" 0])
              (fps h ++ [get_float metrics "fps" 0]) in
  let w := window_size self in
  mkMonitor (thresholds self) w
    (mkHistory (trim w (latency_ms appended))
               (trim w (cpu_percent appended))
               (trim w (memory_mb appended))
               (trim w (fps appended))).

(** [sum(l) / len(l) if l else 0]. *)
Definition average (l : list Q) : result Q :=
  match l with
  | [] => Ok 0%Q
  | _ :: _ => truediv (sum l) (len l)
  end.

Definition get_average_metrics (self : t) : result Averages :=
  let h := history self in
  a_latency ← average (latency_ms h);
  a_cpu ← average (cpu_percent h);
  a_memory ← average (memory_mb h);
  a_fps ← average (fps h);
  mret (mkAverages a_latency a_cpu a_memory a_fps).

Definition should_switch (self : t) : result bool :=
  if len (latency_ms (history self)) <? window_size self then mret false
  else
    avg ← get_average_metrics self;
    if Qltb (get_float (thresholds self) "max_latency_ms" 1000) (avg_latency_ms avg)
    then mret true
    else if Qltb (get_float (thresholds self) "max_cpu_percent" 80) (avg_cpu_percent avg)
    then mret true
    else if Qltb (get_float (thresholds self) "max_memory_mb" 2000) (avg_memory_mb avg)
    then mret true
    else if Qltb (avg_fps avg) (get_float (thresholds self) "min_fps" (8 # 10))
    then mret true
    else mret false.

(** Feeding a sequence of samples, oldest first. *)
Definition record_all (self : t) (samples : list (gmap string Q)) : t :=
  foldl record self samples.

End PerformanceMonitor.

(** ** The monitor's arithmetic

    [get_average_metrics] and [should_switch] add, divide and compare
    Python numbers: ints of any size and binary floating-point numbers.
    [sum] and [/] round, and they raise [OverflowError] when an int is
    beyond the range of the floats.  Here the two methods are given
    over an arbitrary arithmetic: a type of numbers, the numbers that
    the literals of the source denote, and what [sum], [/] by a length
    and [<] do.  What is proved of them holds of Python's arithmetic,
    whatever its rounding; the exact arithmetic of [PerformanceMonitor]
    is one instance. *)

Module Numeric.

Record arithmetic : Type := mkArithmetic {
  num : Type;
  of_int : Z → num;
  of_float : Q → num;
  sum : list num → result num;
  truediv : num → Z → result num;
  less : num → num → bool
}.

Record History (A : arithmetic) : Type := mkHistory {
  latency_ms : list (num A);
  cpu_percent : list (num A);
  memory_mb : list (num A);
  fps : list (num A)
}.
Arguments mkHistory {A} _ _ _ _.
Arguments latency_ms {A} _.
Arguments cpu_percent {A} _.
Arguments memory_mb {A} _.
Arguments fps {A} _.

Record t (A : arithmetic) : Type := mkMonitor {
  thresholds : gmap string (num A);
  window_size : Z;
  history : History A
}.
Arguments mkMonitor {A} _ _ _.
Arguments thresholds {A} _.
Arguments window_size {A} _.
Arguments history {A} _.

Record Averages (A : arithmetic) : Type := mkAverages {
  avg_latency_ms : num A;
  avg_cpu_percent : num A;
  avg_memory_mb : num A;
  avg_fps : num A
}.
Arguments mkAverages {A} _ _ _ _.
Arguments avg_latency_ms {A} _.
Arguments avg_cpu_percent {A} _.
Arguments avg_memory_mb {A} _.
Arguments avg_fps {A} _.

(** [d.get(k, dflt)] on a dict of numbers. *)
Definition get_number {A} (d : gmap string (num A)) (k : string) (dflt : num A) : num A :=
  default dflt (d !! k).

(** [sum(l) / len(l) if l else 0]. *)
Definition average {A} (l : list (num A)) : result (num A) :=
  match l with
  | [] => Ok (of_int A 0)
  | _ :: _ => s ← sum A l; truediv A s (len l)
  end.

Definition get_average_metrics {A} (self : t A) : result (Averages A) :=
  let h := history self in
  a_latency ← average (latency_ms h);
  a_cpu ← average (cpu_percent h);
  a_memory ← average (memory_mb h);
  a_fps ← average (fps h);
  mret (mkAverages a_latency a_cpu a_memory a_fps).

(** [x > y] is [y < x]. *)
Definition should_switch {A} (self : t A) : result bool :=
  if len (latency_ms (history self)) <? window_size self then mret false
  else
    avg ← get_average_metrics self;
    if less A (get_number (thresholds self) "max_latency_ms" (of_int A 1000))
              (avg_latency_ms avg)
    then mret true
    else if less A (get_number (thresholds self) "max_cpu_percent" (of_int A 80))
                   (avg_cpu_percent avg)
    then mret true
    else if less A (get_number (thresholds self) "max_memory_mb" (of_int A 2000))
                   (avg_memory_mb avg)
    then mret true
    else if less A (avg_fps avg)
                   (get_number (thresholds self) "min_fps" (of_float A (8 # 10)))
    then mret true
    else mret false.

(** Exact arithmetic, and a monitor of [PerformanceMonitor] as a monitor
    over it. *)
Definition exact : arithmetic :=
  mkArithmetic Q inject_Z (λ q, q) (λ l, Ok (Py.sum l)) Py.truediv Qltb.

Definition of_monitor (m : PerformanceMonitor.t) : t exact :=
  let h := PerformanceMonitor.history m in
  mkMonitor (A := exact)
    (PerformanceMonitor.thresholds m) (PerformanceMonitor.window_size m)
    (mkHistory (A := exact)
       (PerformanceMonitor.latency_ms h) (PerformanceMonitor.cpu_percent h)
       (PerformanceMonitor.memory_mb h) (PerformanceMonitor.fps h)).

(** Python's numbers with their range.  An int is exact.  A float is
    idealised as the rational it denotes: its rounding is not modelled.
    The range of the floats is: an int converts to a float, and the
    quotient of two ints is a float, when it rounds to a finite float,
    that is when it is below [2^1024 - 2^970] in absolute value; beyond,
    Python raises [OverflowError]. *)
Inductive number : Type :=
  | Int (z : Z)
  | Float (q : Q).

Definition float_bound : Z := 2 ^ 1024 - 2 ^ 970.

Definition value_of (x : number) : Q :=
  match x with
  | Int z => inject_Z z
  | Float q => q
  end.

(** [float(x)]. *)
Definition to_float (x : number) : result Q :=
  match x with
  | Int z => if Z.abs z <? float_bound then Ok (inject_Z z) else Raise OverflowError
  | Float q => Ok q
  end.

(** [x + y]. *)
Definition add (x y : number) : result number :=
  match x, y with
  | Int a, Int b => Ok (Int (a + b))
  | _, _ => a ← to_float x; b ← to_float y; mret (Float (a + b)%Q)
  end.

(** [sum(l)]: the accumulator starts at the int 0. *)
Definition sum_numbers (l : list number) : result number :=
  foldl (λ acc x, a ← acc; add a x) (Ok (Int 0)) l.

(** [x / n] for the int [n]. *)
Definition divide (x : number) (n : Z) : result number :=
  if n =? 0 then Raise ZeroDivisionError
  else match x with
       | Int a =>
           if Z.abs a <? float_bound * Z.abs n
           then Ok (Float (inject_Z a / inject_Z n)%Q)
           else Raise OverflowError
       | Float q => Ok (Float (q / inject_Z n)%Q)
       end.

Definition python_numbers : arithmetic :=
  mkArithmetic number Int Float sum_numbers divide
    (λ x y, Qltb (value_of x) (value_of y)).

End Numeric.

(** ** class GestureRecognitionEngine *)

Module GestureRecognitionEngine.

(** [last_switch_time] and [switch_cooldown] are attributes that
    [__init__] sets in dynamic mode only: [None] is an unset attribute.
    [switch_cooldown] and [current_approach] hold whatever the
    configuration or the caller supplied. *)
Record t : Type := mkEngine {
  config : value;
  current_approach : value;
  performance_monitor : option PerformanceMonitor.t;
  last_switch_time : option Q;
  switch_cooldown : option value
}.

Definition set_current_approach (v : value) (self : t) : t :=
  mkEngine (config self) v (performance_monitor self)
           (last_switch_time self) (switch_cooldown self).

Definition set_last_switch_time (now : Q) (self : t) : t :=
  mkEngine (config self) (current_approach self) (performance_monitor self)
           (Some now) (switch_cooldown self).

Definition set_performance_monitor (pm : PerformanceMonitor.t) (self : t) : t :=
  mkEngine (config self) (current_approach self) (Some pm)
           (last_switch_time self) (switch_cooldown self).

(** Reading an attribute that may be unset. *)
Definition getattr {A} (a : option A) : result A :=
  match a with
  | Some x => Ok x
  | None => Raise AttributeError
  end.

(** Methods run on the engine and the world together. *)
Definition State : Type := t * World.

Definition get_self : M State t := λ s, (Ok s.1, s).
Definition modify_self (f : t → t) : M State unit := λ s, (Ok tt, (f s.1, s.2)).
Definition in_world {A} (m : M World A) : M State A :=
  λ s, let '(r, w') := m s.2 in (r, (s.1, w')).

(** The part of [setup_logging] that depends on the configuration; the
    directory and the log file are taken to be created without error. *)
Definition setup_logging (config : value) : result unit :=
  logging ← get config "logging" (VDict []);
  log_dir ← get logging "log_dir" (VStr "logs");
  match log_dir with
  | VStr _ => mret tt
  | _ => Raise TypeError
  end.

(** The arguments of [PerformanceMonitor(thresholds, window_size)] at
    the types its signature gives them, [Dict[str, float]] and [int].
    Python stores the arguments unchecked; a monitor holding values of
    other types fails later, at their first use, and has no value in
    this embedding: such arguments are [NotModelled]. *)
Fixpoint float_items (items : list (string * value)) : result (list (string * Q)) :=
  match items with
  | [] => mret []
  | (k, v) :: rest =>
      match as_number v with
      | Ok q => qs ← float_items rest; mret ((k, q) :: qs)
      | Raise _ => Raise NotModelled
      end
  end.

Definition as_thresholds (v : value) : result (gmap string Q) :=
  match v with
  | VDict items => qs ← float_items items; mret (list_to_map qs)
  | _ => Raise NotModelled
  end.

Definition as_window_size (v : value) : result Z :=
  match as_int v with
  | Ok z => Ok z
  | Raise _ => Raise NotModelled
  end.

(** [__init__].  It raises what [setup_logging] and the reads of the
    configuration raise, and is [NotModelled] on monitor arguments that
    are not of their annotated types (Python builds the engine). *)
Definition init (config : value) : result t :=
  setup_logging config;;
  mode ← get config "mode" VNone;
  if eq_str mode "dynamic" then
    dynamic1 ← get config "dynamic" (VDict []);
    thresholds ← get dynamic1 "performance_thresholds" (VDict []);
    dynamic2 ← get config "dynamic" (VDict []);
    window_size ← get dynamic2 "evaluation_window" (VInt 5);
    thresholds' ← as_thresholds thresholds;
    window_size' ← as_window_size window_size;
    dynamic3 ← get config "dynamic" (VDict []);
    cooldown ← get dynamic3 "switch_cooldown_seconds" (VInt 10);
    mret (mkEngine config VNone
            (Some (PerformanceMonitor.init thresholds' window_size'))
            (Some 0%Q) (Some cooldown))
  else
    mret (mkEngine config VNone None None None).

Definition get_available_approaches (self : t) : result (list string) :=
  approaches ← get (config self) "approaches" (VDict []);
  keys approaches.

(** [self.config.get('mode') == m]. *)
Definition mode_is (self : t) (m : string) : result bool :=
  mode ← get (config self) "mode" VNone;
  mret (eq_str mode m).

Definition switch_approach (from_approach to_approach : string) : M State bool :=
  self ← get_self;
  available ← lift (get_available_approaches self);
  if negb (str_in_list to_approach available) then
    in_world (logger (LogInvalidApproach to_approach));;
    mret false
  else
    dynamic ← lift (mode_is self "dynamic");
    on_cooldown ←
      (if dynamic : bool then
         current_time ← in_world time_time;
         last ← lift (getattr (last_switch_time self));
         cooldown ← lift (getattr (switch_cooldown self));
         early ← lift (lt_value (current_time - last) cooldown);
         if early : bool then
           in_world (logger (LogSwitchOnCooldown cooldown));;
           mret true
         else mret false
       else mret false);
    if on_cooldown : bool then mret false
    else
      in_world (logger (LogSwitching from_approach to_approach));;
      modify_self (set_current_approach (VStr to_approach));;
      dynamic' ← lift (mode_is self "dynamic");
      (if dynamic' : bool then
         now ← in_world time_time;
         modify_self (set_last_switch_time now)
       else mret tt);;
      mret true.

Definition should_switch_dynamically (self : t) : result (option string) :=
  dynamic ← mode_is self "dynamic";
  match dynamic, performance_monitor self with
  | false, _ | true, None => mret None
  | true, Some monitor =>
      recommended ← PerformanceMonitor.should_switch monitor;
      if recommended : bool then
        available_approaches ← get_available_approaches self;
        other_approach ←
          first (List.filter (λ a, negb (eq_str (current_approach self) a))
                             available_approaches);
        mret (Some other_approach)
      else mret None
  end.

(** The states a run can reach: an engine built by [main] from a
    validated configuration, then any sequence of samples recorded by
    its monitor and of calls to [switch_approach]. *)
Inductive reachable : t → Prop :=
  | reach_init config w w' self :
      validate_config config w = (Ok true, w') →
      init config = Ok self →
      reachable self
  | reach_record self monitor metrics :
      reachable self →
      performance_monitor self = Some monitor →
      reachable (set_performance_monitor (PerformanceMonitor.record monitor metrics) self)
  | reach_switch self w from_approach to_approach r self' w' :
      reachable self →
      switch_approach from_approach to_approach (self, w) = (r, (self', w')) →
      reachable self'.

End GestureRecognitionEngine.

(** * Specification vocabulary *)



(** The [n] most recent entries of [l], oldest first. *)
Definition most_recent {A} (n : nat) (l : list A) : list A :=
  drop (length l - n) l.

(** The column of a metric in a sequence of samples. *)
Definition column (k : string) (samples : list (gmap string Q)) : list Q :=
  (λ metrics, PerformanceMonitor.get_float metrics k 0%Q) <$> samples.



(** A sample that carries only a latency, and the scenario of the
    specification: window size 5, latency threshold 500, six samples. *)
Definition latency_sample (x : Q) : gmap string Q := {[ "latency_ms" := x ]}.

Definition scenario_monitor : PerformanceMonitor.t :=
  PerformanceMonitor.record_all
    (PerformanceMonitor.init {[ "max_latency_ms" := 500%Q ]} 5)
    (latency_sample <$> [100; 100; 100; 100; 100; 900]%Q).




Definition mean_in {A} (l : list (Numeric.num A)) (q : Numeric.num A) : Prop :=
  match l with
  | [] => q = Numeric.of_int A 0
  | _ :: _ =>
      len l ≠ 0 ∧
      ∃ s, Numeric.sum A l = Ok s ∧ Numeric.truediv A s (len l) = Ok q
  end.

(** Averaging the window [l] raises [e]: the window is not empty, and
    its sum or the division of the sum by its length raises [e]. *)
Definition raises_in {A} (l : list (Numeric.num A)) (e : exn) : Prop :=
  l ≠ [] ∧
  (Numeric.sum A l = Raise e ∨
   ∃ s, Numeric.sum A l = Ok s ∧ Numeric.truediv A s (len l) = Raise e).

(** An arithmetic in which only a division by 0 raises
    [ZeroDivisionError], as in Python. *)
Definition divides_by_zero_only (A : Numeric.arithmetic) : Prop :=
  (∀ l, Numeric.sum A l ≠ Raise ZeroDivisionError) ∧
  (∀ x n, n ≠ 0 → Numeric.truediv A x n ≠ Raise ZeroDivisionError).

(** A monitor with a window of one sample that has recorded an int
    latency of 10^400. *)
Definition huge_monitor : Numeric.t Numeric.python_numbers :=
  Numeric.mkMonitor (A := Numeric.python_numbers) ∅ 1
    (Numeric.mkHistory (A := Numeric.python_numbers)
       [Numeric.Int (10 ^ 400)] [Numeric.Int 10] [Numeric.Int 100] [Numeric.Int 30]).

(** The shape the data model gives a configuration: a mapping in which
    [approaches] and [dynamic], when present, are mappings and
    [dynamic.enabled], when present, is a boolean. *)
Definition is_dict (v : value) : Prop :=
  match v with VDict _ => True | _ => False end.

Definition is_bool (v : value) : Prop :=
  match v with VBool _ => True | _ => False end.

Definition field_ok (items : list (string * value)) (k : string)
    (P : value → Prop) : Prop :=
  match dict_lookup items k with
  | Some v => P v
  | None => True
  end.

Definition config_schema (config : value) : Prop :=
  match config with
  | VDict items =>
      field_ok items "approaches" is_dict ∧
      field_ok items "dynamic"
        (λ d, match d with
              | VDict ditems => field_ok ditems "enabled" is_bool
              | _ => False
              end)
  | _ => False
  end.

(** [config[k]], when [config] is a mapping that has the key. *)
Definition field (config : value) (k : string) : option value :=
  match config with
  | VDict items => dict_lookup items k
  | _ => None
  end.

(** The approaches that a configuration registers: the items of its
    [approaches] mapping, and none when it has no such key. *)
Definition approaches_of (config : value) : option (list (string * value)) :=
  match config with
  | VDict _ =>
      match field config "approaches" with
      | Some (VDict approaches) => Some approaches
      | Some _ => None
      | None => Some []
      end
  | _ => None
  end.


(** The validity condition, in the specification's words. *)
Definition valid_config (config : value) : Prop :=
  let mode := field config "mode" in
  (mode = Some (VStr "static") ∨ mode = Some (VStr "dynamic")) ∧
  (mode = Some (VStr "static") →
   ∃ approach approaches,
     field config "approach" = Some (VStr approach) ∧
     (approach = "mediapipe" ∨ approach = "smolvlm") ∧
     field config "approaches" = Some (VDict approaches) ∧
     approach ∈ dict_keys approaches) ∧
  (mode = Some (VStr "dynamic") →
   ∃ dynamic,
     field config "dynamic" = Some dynamic ∧
     field dynamic "enabled" = Some (VBool true)).

(** The engine is in dynamic mode. *)
Definition is_dynamic (self : GestureRecognitionEngine.t) : bool :=
  match field (GestureRecognitionEngine.config self) "mode" with
  | Some (VStr "dynamic") => true
  | _ => false
  end.

(** The world's current time, the world after a clock reading and the
    world after a log entry. *)
Definition now (w : World) : Q := clock w (ticks w).
Definition logged (r : log_record) (w : World) : World :=
  mkWorld (clock w) (ticks w) (log w ++ [r]) (stdout w).

(** Concrete configurations, engines and worlds used as test inputs. *)
Definition dynamic_config (approaches : list (string * value)) : value :=
  VDict [("mode", VStr "dynamic");
         ("approach", VStr "mediapipe");
         ("approaches", VDict approaches);
         ("dynamic", VDict [("enabled", VBool true);
                            ("evaluation_window", VInt 1);
                            ("switch_cooldown_seconds", VInt 10)])].

Definition static_config : value :=
  VDict [("mode", VStr "static");
         ("approach", VStr "smolvlm");
         ("approaches", VDict [("mediapipe", VDict [("module", VStr "gesture_recognition")]);
                               ("smolvlm", VDict [("module", VStr "gesture_recognition_smolvlm_only")])])].

Definition two_approaches : list (string * value) :=
  [("mediapipe", VDict [("module", VStr "gesture_recognition")]);
   ("smolvlm", VDict [("module", VStr "gesture_recognition_smolvlm_only")])].

Definition one_approach : list (string * value) :=
  [("mediapipe", VDict [("module", VStr "gesture_recognition")])].

Definition fresh_engine (approaches : list (string * value)) : GestureRecognitionEngine.t :=
  GestureRecognitionEngine.mkEngine (dynamic_config approaches) VNone
    (Some (PerformanceMonitor.init ∅ 1)) (Some 0%Q) (Some (VInt 10)).

(** An engine in dynamic mode whose monitor, with a window of one
    sample, has just recorded [slow_sample]. *)
Definition slow_sample : gmap string Q :=
  {[ "latency_ms" := 5000%Q; "cpu_percent" := 10%Q;
     "memory_mb" := 100%Q; "fps" := 30%Q ]}.

Definition degraded_engine (approaches : list (string * value))
    (current : value) : GestureRecognitionEngine.t :=
  GestureRecognitionEngine.mkEngine (dynamic_config approaches) current
    (Some (PerformanceMonitor.record (PerformanceMonitor.init ∅ 1) slow_sample))
    (Some 0%Q) (Some (VInt 10)).

(** A clock that starts at 1,700,000,000 s and advances by one second
    per reading. *)
Definition epoch_world : World :=
  mkWorld (λ n, inject_Z (1700000000 + Z.of_nat n)) 0 [] [].



(** Configurations outside the data model: [dynamic.enabled] is the
    string 'false'; [approaches] is a string that contains the name of
    the approach. *)
Definition stringly_enabled_config : value :=
  VDict [("mode", VStr "dynamic");
         ("dynamic", VDict [("enabled", VStr "false")])].

Definition substring_approaches_config : value :=
  VDict [("mode", VStr "static");
         ("approach", VStr "mediapipe");
         ("approaches", VStr "xxmediapipexx")].

(** The four windows have the same number of entries. *)
Definition windows_aligned (h : PerformanceMonitor.History) : Prop :=
  length (PerformanceMonitor.latency_ms h) = length (PerformanceMonitor.cpu_percent h) ∧
  length (PerformanceMonitor.cpu_percent h) = length (PerformanceMonitor.memory_mb h) ∧
  length (PerformanceMonitor.memory_mb h) = length (PerformanceMonitor.fps h).

(** No window holds more than [window_size] entries. *)
Definition windows_bounded (self : PerformanceMonitor.t) : Prop :=
  let h := PerformanceMonitor.history self in
  let w := PerformanceMonitor.window_size self in
  len (PerformanceMonitor.latency_ms h) ≤ w ∧
  len (PerformanceMonitor.cpu_percent h) ≤ w ∧
  len (PerformanceMonitor.memory_mb h) ≤ w ∧
  len (PerformanceMonitor.fps h) ≤ w.

(** The four columns of a sequence of samples, and their most recent
    entries. *)
Definition columns (samples : list (gmap string Q)) : PerformanceMonitor.History :=
  PerformanceMonitor.mkHistory
    (column "latency_ms" samples) (column "cpu_percent" samples)
    (column "memory_mb" samples) (column "fps" samples).

Definition good_sample : gmap string Q :=
  {[ "latency_ms" := 100%Q; "cpu_percent" := 10%Q;
     "memory_mb" := 100%Q; "fps" := 30%Q ]}.

(** What [__init__] leaves of the mode-dependent attributes: in dynamic
    mode the switch time, the cooldown and the monitor are set; outside
    it there is no monitor. *)
Definition attributes_set (self : GestureRecognitionEngine.t) : Prop :=
  if is_dynamic self then
    is_Some (GestureRecognitionEngine.last_switch_time self) ∧
    is_Some (GestureRecognitionEngine.switch_cooldown self) ∧
    is_Some (GestureRecognitionEngine.performance_monitor self)
  else GestureRecognitionEngine.performance_monitor self = None.



(** ** Running an approach: execute_static_mode, execute_dynamic_mode,
    execute, load_config and main

    The approach modules are foreign code.  What the engine can see of
    them is taken as a parameter: whether [importlib.import_module]
    returns a module, raises or never returns, which attributes the
    module has, and how a call of an attribute ends.  [SystemExit],
    [KeyboardInterrupt] and the other exceptions that derive from
    [BaseException] only ([GeneratorExit], a class of the module's own)
    are not subclasses of [Exception] and pass through
    [except Exception]. *)

Module Execution.
Import GestureRecognitionEngine.

Inductive base_exception : Type :=
  | SystemExit (code : Z)
  | KeyboardInterrupt
  | OtherBaseException.

Inductive raised : Type :=
  | ImportError
  | OtherException
  | Base (b : base_exception).

(** [NeverReturns] is a call, and [ImportNeverReturns] an import, that
    does not come back to the engine: it runs without end, or ends the
    process without raising. *)
Inductive call_result : Type :=
  | Returns
  | CallRaises (r : raised)
  | NeverReturns.

Inductive import_result : Type :=
  | Imports (attributes : string → option call_result)
  | ImportRaises (r : raised)
  | ImportNeverReturns.

Definition Modules : Type := string → import_result.

(** The content of [config.json] as [open] and [json.load] see it:
    [Unreadable e] is a failure with an exception [e] that is neither
    [FileNotFoundError] nor [JSONDecodeError] (a directory or a file
    without read permission, bytes that do not decode). *)
Inductive config_file : Type :=
  | FileNotFound
  | InvalidJSON
  | Unreadable (e : exn)
  | Holds (config : value).

(** The lines [main] and [load_config] print. *)
Inductive main_print : Type :=
  | PrintConfigNotFound
  | PrintInvalidJSON
  | PrintValidationFailed
  | PrintRule
  | PrintTitle
  | PrintMode (mode : string)
  | PrintApproach (approach : value)
  | PrintInitialApproach (approach : value)
  | PrintDynamicEnabled
  | PrintBlank
  | PrintInterrupted
  | PrintError (e : exn).

(** What a run leaves behind, in order: the engine's log lines, the
    printed lines, the tracebacks, and the imports and calls of foreign
    code. *)
Inductive event : Type :=
  | LogStatic (approach : value)
  | LogNoModule (approach : value)
  | LogImporting (module_name : value)
  | LogNoFunction (module_name main_function : string)
  | LogExecuting (module_name main_function : string)
  | LogImportFailed (module_name : value)
  | LogExecutionError (module_name main_function : value)
  | LogDynamicStart (approach : value)
  | LogWillSwitch
  | LogDynamicLimited
  | LogDynamicNeedsChanges
  | LogUnknownMode (mode : value)
  | Traceback
  | Printed (line : main_print)
  | Imported (module_name : string)
  | Called (module_name main_function : string).

(** How a piece of code ends: it returns, raises an [Exception], raises
    a [BaseException] that is no [Exception], or never returns to its
    caller. *)
Inductive outcome (A : Type) : Type :=
  | Done (a : A)
  | Failed (e : exn)
  | Exits (b : base_exception)
  | Hangs.
Arguments Done {A} a.
Arguments Failed {A} e.
Arguments Exits {A} b.
Arguments Hangs {A}.

Definition Exec (S A : Type) : Type := S → outcome A * S.

#[export] Instance Exec_ret {S} : MRet (Exec S) := λ A a s, (Done a, s).
#[export] Instance Exec_bind {S} : MBind (Exec S) := λ A B k m s,
  match m s with
  | (Done a, s') => k a s'
  | (Failed e, s') => (Failed e, s')
  | (Exits b, s') => (Exits b, s')
  | (Hangs, s') => (Hangs, s')
  end.

(** An engine method runs on the engine and the journal of events. *)
Definition Run : Type := t * list event.

Definition of_result {S A} (r : result A) : Exec S A :=
  λ s, (match r with Ok a => Done a | Raise e => Failed e end, s).
Definition fails {S A} (e : exn) : Exec S A := λ s, (Failed e, s).
Definition exits {S A} (b : base_exception) : Exec S A := λ s, (Exits b, s).
Definition hangs {S A} : Exec S A := λ s, (Hangs, s).
Definition this : Exec Run t := λ s, (Done s.1, s).
Definition assign (f : t → t) : Exec Run unit := λ s, (Done tt, (f s.1, s.2)).
Definition emit (e : event) : Exec Run unit := λ s, (Done tt, (s.1, s.2 ++ [e])).

(** [o.get(k, dflt)] for a key that is any value: a list or a dict is
    not hashable; the keys of a JSON object are strings. *)
Definition get_key (o k dflt : value) : result value :=
  match o with
  | VDict items =>
      match k with
      | VList _ | VDict _ => Raise TypeError
      | VStr s => Ok (default dflt (dict_lookup items s))
      | _ => Ok dflt
      end
  | _ => Raise AttributeError
  end.

(** How an exception raised inside the [try] of [execute_static_mode]
    is handled. *)
Definition handle (module_name main_function : value) (r : raised) : Exec Run unit :=
  match r with
  | ImportError => emit (LogImportFailed module_name)
  | OtherException =>
      emit (LogExecutionError module_name main_function);; emit Traceback
  | Base b => exits b
  end.

(** The body of [execute_static_mode] from [if not module_name] on:
    the guard and the [try] statement. *)
Definition run_entry_point (modules : Modules)
    (approach module_name main_function : value) : Exec Run unit :=
  if negb (truthy module_name) then emit (LogNoModule approach)
  else
    emit (LogImporting module_name);;
    match module_name with
    | VStr m =>
        emit (Imported m);;
        match modules m with
        | ImportRaises r => handle module_name main_function r
        | ImportNeverReturns => hangs
        | Imports attributes =>
            match main_function with
            | VStr f =>
                match attributes f with
                | None => emit (LogNoFunction m f)
                | Some main_func =>
                    emit (LogExecuting m f);;
                    emit (Called m f);;
                    match main_func with
                    | Returns => mret tt
                    | CallRaises r => handle module_name main_function r
                    | NeverReturns => hangs
                    end
                end
            | _ => handle module_name main_function OtherException
            end
        end
    | _ => handle module_name main_function OtherException
    end.

(** The reads of the configuration that come before it. *)
Definition read_descriptor (self : t) (approach : value) : result (value * value) :=
  approaches ← get (config self) "approaches" (VDict []);
  approach_config ← get_key approaches approach (VDict []);
  module_name ← get approach_config "module" VNone;
  main_function ← get approach_config "main_function" (VStr "main");
  mret (module_name, main_function).

Definition execute_static_mode (modules : Modules) : Exec Run unit :=
  self ← this;
  approach ← of_result (get (config self) "approach" VNone);
  assign (set_current_approach approach);;
  emit (LogStatic approach);;
  descriptor ← of_result (read_descriptor self approach);
  run_entry_point modules approach descriptor.1 descriptor.2.

Definition execute_dynamic_mode (modules : Modules) : Exec Run unit :=
  self ← this;
  approach ← of_result (get (config self) "approach" (VStr "mediapipe"));
  assign (set_current_approach approach);;
  emit (LogDynamicStart approach);;
  emit LogWillSwitch;;
  emit LogDynamicLimited;;
  emit LogDynamicNeedsChanges;;
  execute_static_mode modules.

Definition execute (modules : Modules) : Exec Run unit :=
  self ← this;
  mode ← of_result (get (config self) "mode" VNone);
  if eq_str mode "static" then execute_static_mode modules
  else if eq_str mode "dynamic" then execute_dynamic_mode modules
  else emit (LogUnknownMode mode);; exits (SystemExit 1).

(** [main] and [load_config] run on the world and the journal. *)
Definition Top : Type := World * list event.

Definition say (line : main_print) : Exec Top unit :=
  λ s, (Done tt, (s.1, s.2 ++ [Printed line])).

Definition print_exc : Exec Top unit :=
  λ s, (Done tt, (s.1, s.2 ++ [Traceback])).

Definition load_config (file : config_file) : Exec Top value :=
  match file with
  | Holds config => mret config
  | FileNotFound => say PrintConfigNotFound;; exits (SystemExit 1)
  | InvalidJSON => say PrintInvalidJSON;; exits (SystemExit 1)
  | Unreadable e => fails e
  end.

(** [validate_config] and an engine method inside [main]. *)
Definition validating (m : M World bool) : Exec Top bool :=
  λ s, let '(r, w') := m s.1 in
       (match r with Ok b => Done b | Raise e => Failed e end, (w', s.2)).

Definition on_engine {A} (engine : t) (m : Exec Run A) : Exec Top (outcome A * t) :=
  λ s, let '(r, (engine', journal')) := m (engine, s.2) in
       (Done (r, engine'), (s.1, journal')).

(** [s.upper()], on the ASCII letters; after validation the mode is
    'static' or 'dynamic'. *)
Definition upper_char (c : Ascii.ascii) : Ascii.ascii :=
  let n := Ascii.nat_of_ascii c in
  if ((97 <=? n) && (n <=? 122))%nat then Ascii.ascii_of_nat (n - 32) else c.

Fixpoint upper (s : string) : string :=
  match s with
  | EmptyString => EmptyString
  | String c rest => String (upper_char c) (upper rest)
  end.

(** [config.get(k, dflt).upper()]. *)
Definition upper_of (v : value) : result string :=
  match v with
  | VStr s => Ok (upper s)
  | _ => Raise AttributeError
  end.

Definition main (file : config_file) (modules : Modules) : Exec Top unit :=
  config ← load_config file;
  valid ← validating (validate_config config);
  if negb valid then say PrintValidationFailed;; exits (SystemExit 1)
  else
    engine ← of_result (init config);
    say PrintRule;; say PrintTitle;; say PrintRule;;
    mode ← of_result (get config "mode" (VStr "unknown"));
    mode_name ← of_result (upper_of mode);
    say (PrintMode mode_name);;
    (if eq_str mode "static" then
       approach ← of_result (get config "approach" (VStr "unknown"));
       say (PrintApproach approach)
     else if eq_str mode "dynamic" then
       approach ← of_result (get config "approach" (VStr "unknown"));
       say (PrintInitialApproach approach);; say PrintDynamicEnabled
     else mret tt);;
    say PrintRule;; say PrintBlank;;
    ran ← on_engine engine (execute modules);
    match ran.1 with
    | Done _ => mret tt
    | Exits KeyboardInterrupt => say PrintInterrupted
    | Exits b => exits b
    | Failed e => say (PrintError e);; print_exc
    | Hangs => hangs
    end.

(** The calls and the imports of foreign code among a run's events. *)
Definition calls (journal : list event) : list (string * string) :=
  omap (λ e, match e with Called m f => Some (m, f) | _ => None end) journal.

Definition imports (journal : list event) : list string :=
  omap (λ e, match e with Imported m => Some m | _ => None end) journal.

End Execution.

(** The entry point that the configuration names for its approach: the
    [module] and the [main_function] (by default 'main') of the
    descriptor registered under [approach]; and its module alone. *)
Definition entry_point (config : value) : option (string * string) :=
  match field config "approach", field config "approaches" with
  | Some (VStr a), Some approaches =>
      match field approaches a with
      | Some descriptor =>
          match field descriptor "module",
                default (VStr "main") (field descriptor "main_function") with
          | Some (VStr m), VStr f => Some (m, f)
          | _, _ => None
          end
      | None => None
      end
  | _, _ => None
  end.

Definition entry_module (config : value) : option string :=
  match field config "approach", field config "approaches" with
  | Some (VStr a), Some approaches =>
      match field approaches a with
      | Some descriptor =>
          match field descriptor "module" with
          | Some (VStr m) => Some m
          | _ => None
          end
      | None => None
      end
  | _, _ => None
  end.


(** Approach modules for the tests: [gesture_recognition] has a [main]
    that returns; importing [gesture_recognition_smolvlm_only] exits the
    process, as the module does when its model fails to load. *)
Definition demo_modules : Execution.Modules :=
  λ m, if String.eqb m "gesture_recognition" then
         Execution.Imports
           (λ f, if String.eqb f "main" then Some Execution.Returns else None)
       else if String.eqb m "gesture_recognition_smolvlm_only" then
         Execution.ImportRaises (Execution.Base (Execution.SystemExit 1))
       else Execution.ImportRaises Execution.ImportError.

Definition static_engine (approach : string) : GestureRecognitionEngine.t :=
  GestureRecognitionEngine.mkEngine
    (VDict [("mode", VStr "static"); ("approach", VStr approach);
            ("approaches", VDict two_approaches)])
    VNone None None None.

(** A dynamic configuration without an [approach] key, and its engine. *)
Definition keyless_items : list (string * value) :=
  [("mode", VStr "dynamic"); ("approaches", VDict two_approaches);
   ("dynamic", VDict [("enabled", VBool true)])].

Definition keyless_engine : GestureRecognitionEngine.t :=
  GestureRecognitionEngine.mkEngine (VDict keyless_items) VNone
    (Some (PerformanceMonitor.init ∅ 5)) (Some 0%Q) (Some (VInt 10)).

(** * Python primitives *)

Section primitives.

Lemma Qltb_lt (x y : Q) : Qltb x y = true ↔ (x < y)%Q.
Proof.
  unfold Qltb. rewrite Qlt_alt.
  destruct (x ?= y)%Q; split; congruence.
Qed.





Lemma str_in_list_elem (s : string) (l : list string) :
  str_in_list s l = true ↔ s ∈ l.
Proof.
  unfold str_in_list. rewrite existsb_exists, list_elem_of_In. split.
  - intros (x & Hx & Heq). apply String.eqb_eq in Heq. by subst.
  - intros Hs. exists s. split; [done | apply String.eqb_refl].
Qed.

Lemma slice_from_neg {A} (w : Z) (l : list A) :
  0 < w →
  slice_from (- w) l = most_recent (Z.to_nat w) l.
Proof.
  intros Hw. unfold slice_from, most_recent, len.
  replace (- w <? 0) with true by (symmetry; apply Z.ltb_lt; lia).
  f_equal. lia.
Qed.

Lemma slice_from_0 {A} (l : list A) : slice_from 0 l = l.
Proof. unfold slice_from, len. simpl. by rewrite Z.min_l by lia. Qed.

End primitives.

(** * The sliding windows *)

Section windows.
Import PerformanceMonitor.

Lemma length_most_recent {A} (n : nat) (l : list A) :
  length (most_recent n l) = Nat.min n (length l).
Proof. unfold most_recent. rewrite length_drop. lia. Qed.

Lemma most_recent_all {A} (n : nat) (l : list A) :
  (length l ≤ n)%nat → most_recent n l = l.
Proof.
  intros Hn. unfold most_recent.
  by replace (length l - n)%nat with 0%nat by lia.
Qed.

(** Appending to a trimmed window and trimming again is trimming the
    whole sequence. *)
Lemma most_recent_snoc {A} (n : nat) (l : list A) (x : A) :
  (1 ≤ n)%nat →
  most_recent n (most_recent n l ++ [x]) = most_recent n (l ++ [x]).
Proof.
  intros Hn. destruct (decide (length l ≤ n)%nat) as [Hle|Hgt].
  - by rewrite (most_recent_all n l).
  - unfold most_recent at 1 3.
    rewrite !length_app, length_most_recent. simpl.
    unfold most_recent.
    rewrite !drop_app_le by (rewrite ?length_drop; lia).
    rewrite drop_drop. do 2 f_equal. lia.
Qed.

Lemma trim_most_recent (w : Z) (l : list Q) :
  1 ≤ w → trim w l = most_recent (Z.to_nat w) l.
Proof.
  intros Hw. unfold trim. destruct (len l >? w) eqn:Hlen.
  - apply slice_from_neg. lia.
  - symmetry. apply most_recent_all.
    unfold len in Hlen. rewrite Z.gtb_ltb in Hlen.
    apply Z.ltb_ge in Hlen. lia.
Qed.

Lemma trim_0 (l : list Q) : trim 0 l = l.
Proof. unfold trim. destruct (len l >? 0); [apply slice_from_0 | done]. Qed.

Lemma record_all_snoc (self : t) (samples : list (gmap string Q))
    (metrics : gmap string Q) :
  record_all self (samples ++ [metrics]) = record (record_all self samples) metrics.
Proof. unfold record_all. by rewrite foldl_app. Qed.

Lemma record_all_window_size (self : t) (samples : list (gmap string Q)) :
  window_size (record_all self samples) = window_size self.
Proof.
  induction samples as [|metrics samples IH] using rev_ind; [done|].
  by rewrite record_all_snoc.
Qed.

Lemma record_all_thresholds (self : t) (samples : list (gmap string Q)) :
  thresholds (record_all self samples) = thresholds self.
Proof.
  induction samples as [|metrics samples IH] using rev_ind; [done|].
  by rewrite record_all_snoc.
Qed.

(** The window invariant: a monitor fed from its creation holds, per
    metric, the [window_size] most recent values. *)
Lemma record_all_history (th : gmap string Q) (w : Z)
    (samples : list (gmap string Q)) :
  1 ≤ w →
  history (record_all (init th w) samples) =
  mkHistory (most_recent (Z.to_nat w) (column "latency_ms" samples))
            (most_recent (Z.to_nat w) (column "cpu_percent" samples))
            (most_recent (Z.to_nat w) (column "memory_mb" samples))
            (most_recent (Z.to_nat w) (column "fps" samples)).
Proof.
  intros Hw. induction samples as [|metrics samples IH] using rev_ind; [done|].
  rewrite record_all_snoc. unfold record at 1.
  rewrite record_all_window_size, IH. simpl.
  unfold column. rewrite !fmap_app. simpl.
  rewrite !trim_most_recent by done.
  by rewrite !most_recent_snoc by lia.
Qed.

End windows.

(** * Averages and the switch recommendation *)

Section averages.
Import PerformanceMonitor.



Lemma should_switch_cold (self : t) :
  len (latency_ms (history self)) < window_size self →
  should_switch self = Ok false.
Proof.
  intros Hcold. unfold should_switch.
  by replace (len (latency_ms (history self)) <? window_size self) with true
    by (symmetry; apply Z.ltb_lt; lia).
Qed.

End averages.

(** * The monitor's contract *)

Section monitor_contract.
Import PerformanceMonitor.

(** C3. A monitor that has recorded fewer than [window_size] samples
    since its creation does not recommend a switch, whatever the
    samples and the thresholds. *)
Theorem should_switch_false_while_filling (th : gmap string Q) (w : Z)
    (samples : list (gmap string Q)) :
  len samples < w →
  should_switch (record_all (init th w) samples) = Ok false.
Proof.
  intros Hfew. apply should_switch_cold.
  rewrite record_all_window_size. simpl.
  rewrite record_all_history by (unfold len in Hfew; lia). simpl.
  unfold len in *. rewrite length_most_recent.
  unfold column. rewrite length_fmap. lia.
Qed.






End monitor_contract.

(** * The monitor in any arithmetic *)

Section arithmetic.
Import Numeric.
Context {A : arithmetic}.

Lemma average_mean (l : list (num A)) (q : num A) :
  average l = Ok q → mean_in l q.
Proof.
  destruct l as [|x l]; [by intros [= <-]|].
  unfold average, mean_in. destruct (sum A (x :: l)) as [s|] eqn:Hsum; [|done].
  cbn. intros Hq. split; [unfold len; cbn; lia|]. by exists s.
Qed.

Lemma average_raises (l : list (num A)) (e : exn) :
  average l = Raise e → raises_in l e.
Proof.
  destruct l as [|x l]; [done|].
  unfold average, raises_in. destruct (sum A (x :: l)) as [s|] eqn:Hsum; cbn.
  - intros Hq. split; [done|]. right. by exists s.
  - intros [= <-]. split; [done|]. by left.
Qed.

(** C7, as the code has it. For every monitor state and whatever the
    arithmetic does, [get_average_metrics] never divides by zero: each
    average it returns is 0 for an empty window and, for a non-empty
    one, the quotient of the window's sum by its length, which is not
    0; it raises only what the sum or the division of a non-empty
    window raises, and so never [ZeroDivisionError] in an arithmetic
    where only a division by 0 raises it. *)
Theorem get_average_metrics_guards_division (self : t A) :
  (∀ avg,
     get_average_metrics self = Ok avg →
     mean_in (latency_ms (history self)) (avg_latency_ms avg) ∧
     mean_in (cpu_percent (history self)) (avg_cpu_percent avg) ∧
     mean_in (memory_mb (history self)) (avg_memory_mb avg) ∧
     mean_in (fps (history self)) (avg_fps avg)) ∧
  (∀ e,
     get_average_metrics self = Raise e →
     raises_in (latency_ms (history self)) e ∨
     raises_in (cpu_percent (history self)) e ∨
     raises_in (memory_mb (history self)) e ∨
     raises_in (fps (history self)) e) ∧
  ((∀ e, ¬ raises_in (latency_ms (history self)) e) →
   (∀ e, ¬ raises_in (cpu_percent (history self)) e) →
   (∀ e, ¬ raises_in (memory_mb (history self)) e) →
   (∀ e, ¬ raises_in (fps (history self)) e) →
   ∃ avg, get_average_metrics self = Ok avg) ∧
  (divides_by_zero_only A →
   get_average_metrics self ≠ Raise ZeroDivisionError).
Proof.
  assert (Hraises : ∀ e,
            get_average_metrics self = Raise e →
            raises_in (latency_ms (history self)) e ∨
            raises_in (cpu_percent (history self)) e ∨
            raises_in (memory_mb (history self)) e ∨
            raises_in (fps (history self)) e).
  { intros e. unfold get_average_metrics, mbind, result_bind.
    destruct (average (latency_ms _)) eqn:H1; [|intros [= <-]; eauto using average_raises].
    destruct (average (cpu_percent _)) eqn:H2; [|intros [= <-]; eauto using average_raises].
    destruct (average (memory_mb _)) eqn:H3; [|intros [= <-]; eauto using average_raises].
    destruct (average (fps _)) eqn:H4; [done|intros [= <-]; eauto 10 using average_raises]. }
  split_and!; [|done| |].
  - intros avg. unfold get_average_metrics, mbind, result_bind.
    destruct (average (latency_ms _)) eqn:H1; [|done].
    destruct (average (cpu_percent _)) eqn:H2; [|done].
    destruct (average (memory_mb _)) eqn:H3; [|done].
    destruct (average (fps _)) eqn:H4; [|done].
    intros [= <-]. cbn. split_and!; by apply average_mean.
  - intros N1 N2 N3 N4.
    destruct (get_average_metrics self) as [avg|e] eqn:Havg; [by exists avg|].
    destruct (Hraises e eq_refl) as [H|[H|[H|H]]]; exfalso; naive_solver.
  - intros [Hsum Hdiv] Hzero.
    assert (Hnot : ∀ l : list (num A), ¬ raises_in l ZeroDivisionError).
    { intros l [Hne [Hs|(s & Hs & Hq)]]; [by eapply Hsum|].
      eapply (Hdiv s (len l)); [|done].
      destruct l; [done|]. unfold len. cbn. lia. }
    destruct (Hraises _ Hzero) as [H|[H|[H|H]]]; by eapply Hnot.
Qed.


End arithmetic.

(** The monitor of [PerformanceMonitor] is the monitor in exact
    arithmetic. *)
Section exact_arithmetic.
Import Numeric.

Lemma get_average_metrics_exact (m : PerformanceMonitor.t) :
  get_average_metrics (of_monitor m) =
  match PerformanceMonitor.get_average_metrics m with
  | Ok avg =>
      Ok (mkAverages (A := exact)
            (PerformanceMonitor.avg_latency_ms avg)
            (PerformanceMonitor.avg_cpu_percent avg)
            (PerformanceMonitor.avg_memory_mb avg)
            (PerformanceMonitor.avg_fps avg))
  | Raise e => Raise e
  end.
Proof.
  unfold get_average_metrics, PerformanceMonitor.get_average_metrics.
  cbn [history of_monitor latency_ms cpu_percent memory_mb fps].
  change (@average exact) with PerformanceMonitor.average.
  unfold mbind, result_bind.
  by repeat (destruct (PerformanceMonitor.average _); [|done]).
Qed.

Lemma should_switch_exact (m : PerformanceMonitor.t) :
  should_switch (of_monitor m) = PerformanceMonitor.should_switch m.
Proof.
  unfold should_switch, PerformanceMonitor.should_switch.
  rewrite get_average_metrics_exact.
  cbn [history of_monitor latency_ms window_size thresholds].
  destruct (_ <? _); [done|].
  by destruct (PerformanceMonitor.get_average_metrics m).
Qed.

End exact_arithmetic.

(** * The range of the floats *)

Section float_range.
Import Numeric.


(** [get_average_metrics] is not total: the average of a window that
    holds the int 10^400 is beyond the range of the floats. *)
Lemma get_average_metrics_raises_overflow_error :
  latency_ms (history huge_monitor) = [Int (10 ^ 400)] ∧
  get_average_metrics huge_monitor = Raise OverflowError.
Proof. split; reflexivity. Qed.

End float_range.

(** * The configuration validator *)

Section validator.

(* The verdict is read off the run; a refused configuration is
    refuted from the clause of the validity condition it breaks. *)
Local Ltac verdict := cbn; eexists _, _; split; [reflexivity|].
Local Ltac rejected :=
  verdict; split; [done|];
  let Hmode' := fresh "Hmode'" in
  let Hstatic := fresh "Hstatic" in
  let Hdynamic' := fresh "Hdynamic'" in
  intros (Hmode' & Hstatic & Hdynamic');
  try (by destruct Hmode' as [?|?]; simplify_eq);
  try (by destruct (Hstatic eq_refl) as (? & ? & ? & [?|?] & ? & ?);
          simplify_eq; cbn in *; simplify_eq);
  try (by destruct (Hdynamic' eq_refl) as (? & ? & ?);
          simplify_eq; cbn in *; simplify_eq).
Local Ltac accepted :=
  verdict; split; [|done]; intros _; split_and!; eauto; try done.

(** C5, as the code has it. For a configuration shaped as the data
    model has it, [validate_config] returns, and returns true exactly
    when the mode is 'static' or 'dynamic', and in static mode the
    approach is 'mediapipe' or 'smolvlm' and a key of [approaches], and
    in dynamic mode [dynamic.enabled] is true (false or absent
    fails). *)
Theorem validate_config_iff_valid (config : value) (w : World) :
  config_schema config →
  ∃ b w',
    validate_config config w = (Ok b, w') ∧
    (b = true ↔ valid_config config).
Proof.
  destruct config as [| | | | | |items]; try done.
  intros (Happroaches & Hdynamic).
  unfold valid_config, field_ok in *. cbn [field].
  unfold validate_config, mbind, M_bind, mret, M_ret, lift, print,
    in_strs, existsb, eq_str, get.
  destruct (dict_lookup items "mode") as [mode|] eqn:Hmode; cbn [default];
    [|by rejected].
  destruct mode as [| | | |s| |]; try by rejected.
  cbn.
  destruct (s =? "static")%string eqn:Es; [apply String.eqb_eq in Es|];
    (destruct (s =? "dynamic")%string eqn:Ed; [apply String.eqb_eq in Ed|]).
  - by subst.
  - (* static mode *)
    subst s.
    destruct (dict_lookup items "approach") as [approach|] eqn:Happroach;
      cbn [default]; [|by rejected].
    destruct approach as [| | | |a| |]; try by rejected.
    cbn.
    destruct (a =? "mediapipe")%string eqn:Em; [apply String.eqb_eq in Em|];
      (destruct (a =? "smolvlm")%string eqn:Ev; [apply String.eqb_eq in Ev|]);
      [by subst | | | by rejected].
    all: cbn; destruct (dict_lookup items "approaches") as [approaches|] eqn:Hap;
      cbn [default]; [|by rejected].
    all: destruct approaches as [| | | | | |apps]; try done; cbn.
    all: destruct (str_in_list a (dict_keys apps)) eqn:Hin; cbn;
      [apply str_in_list_elem in Hin; accepted; eauto 10 |
       apply not_true_iff_false in Hin; rewrite str_in_list_elem in Hin;
       by rejected].
  - (* dynamic mode *)
    subst s. cbn.
    destruct (dict_lookup items "dynamic") as [dynamic|] eqn:Hdyn;
      cbn [default]; [|by rejected].
    destruct dynamic as [| | | | | |ditems]; try done. cbn.
    destruct (dict_lookup ditems "enabled") as [enabled|] eqn:Hen;
      cbn [default]; [|by rejected].
    destruct enabled as [|[]| | | | |]; try done; cbn.
    + accepted.
    + by rejected.
  - by rejected.
Qed.

End validator.

(** * The engine's switching policy *)

Section switching.
Import GestureRecognitionEngine.

Local Ltac run :=
  unfold switch_approach, mbind, M_bind, mret, M_ret, lift, get_self,
    in_world, modify_self, logger, time_time; cbn.

Lemma eq_str_true (v : value) (s : string) : eq_str v s = true ↔ v = VStr s.
Proof.
  destruct v; cbn; try (split; [done|intros [=]]).
  rewrite String.eqb_eq. split; [by intros ->|by intros [= ->]].
Qed.

Lemma mode_is_dynamic (self : t) :
  is_dict (config self) → mode_is self "dynamic" = Ok (is_dynamic self).
Proof.
  unfold mode_is, is_dynamic, field. destruct (config self); try done.
  intros _. cbn. destruct (dict_lookup items "mode") as [[]|]; try done.
  cbn. destruct (String.eqb_spec s "dynamic") as [->|Hne]; [done|].
  repeat case_match; simplify_eq; done.
Qed.






Lemma available_approaches_of (self : t) (approaches : list (string * value)) :
  approaches_of (config self) = Some approaches →
  get_available_approaches self = Ok approaches.*1.
Proof.
  unfold approaches_of, get_available_approaches, field, get, keys, dict_keys.
  destruct (config self) as [| | | | | |items]; try done.
  destruct (dict_lookup items "approaches") as [[| | | | | |registered]|];
    try done; by intros [= <-].
Qed.



(** C9. A call to [switch_approach] that returns false leaves the
    engine as it was: [current_approach], [last_switch_time] and every
    other attribute are unchanged. *)
Theorem rejected_switch_changes_nothing (self self' : t) (w w' : World)
    (from_approach to_approach : string) :
  switch_approach from_approach to_approach (self, w) = (Ok false, (self', w')) →
  self' = self ∧
  current_approach self' = current_approach self ∧
  last_switch_time self' = last_switch_time self.
Proof.
  intros Hrun. enough (self' = self) as -> by done. revert Hrun. run.
  destruct (get_available_approaches self) as [available|]; cbn; [|done].
  destruct (str_in_list to_approach available); cbn; [|by intros [= <- _]].
  destruct (mode_is self "dynamic") as [[]|]; cbn; [| |done].
  - destruct (last_switch_time self) as [last|]; cbn; [|done].
    destruct (switch_cooldown self) as [v|]; cbn; [|done].
    destruct (lt_value _ v) as [[]|]; cbn; [|done..].
    by intros [= <- _].
  - done.
Qed.

End switching.

(** * The switch recommendation of the engine *)

Section recommendation.
Import GestureRecognitionEngine.

Lemma filter_first_differing (current : value) (before after : list string)
    (other : string) :
  (∀ a, a ∈ before → current = VStr a) →
  current ≠ VStr other →
  List.filter (λ a, negb (eq_str current a)) (before ++ other :: after) =
  other :: List.filter (λ a, negb (eq_str current a)) after.
Proof.
  intros Hbefore Hother. induction before as [|a before IH]; cbn.
  - apply (not_iff_compat (eq_str_true _ _)), not_true_is_false in Hother.
    by rewrite Hother.
  - rewrite (proj2 (eq_str_true current a)) by (apply Hbefore; left).
    cbn. apply IH. intros a' Ha'. apply Hbefore. by right.
Qed.

Lemma filter_none_differing (current : value) (available : list string) :
  (∀ a, a ∈ available → current = VStr a) →
  List.filter (λ a, negb (eq_str current a)) available = [].
Proof.
  intros Hall. induction available as [|a available IH]; [done|]. cbn.
  rewrite (proj2 (eq_str_true current a)) by (apply Hall; left).
  cbn. apply IH. intros a' Ha'. apply Hall. by right.
Qed.

Lemma is_dynamic_is_dict (self : t) : is_dynamic self = true → is_dict (config self).
Proof. unfold is_dynamic, field. by destruct (config self). Qed.

Lemma recommended_switch (self : t) (monitor : PerformanceMonitor.t)
    (available : list string) :
  is_dynamic self = true →
  performance_monitor self = Some monitor →
  PerformanceMonitor.should_switch monitor = Ok true →
  get_available_approaches self = Ok available →
  should_switch_dynamically self =
    (other ← first (List.filter (λ a, negb (eq_str (current_approach self) a))
                                 available);
     mret (Some other)).
Proof.
  intros Hdyn Hmon Hrec Hav. unfold should_switch_dynamically.
  rewrite (mode_is_dynamic self) by by apply is_dynamic_is_dict.
  rewrite Hdyn, Hmon. cbn. rewrite Hrec. cbn. by rewrite Hav.
Qed.

(** C6. Outside dynamic mode, or without a performance monitor,
    [should_switch_dynamically] returns none; in dynamic mode it returns
    none when the monitor does not recommend a switch, and when the
    monitor recommends one and some approach that the configuration
    registers differs from the current one it returns the first such
    name in the key order of the configuration's approaches mapping. *)
Theorem should_switch_dynamically_contract (self : t) :
  is_dict (config self) →
  (is_dynamic self = false ∨ performance_monitor self = None →
   should_switch_dynamically self = Ok None) ∧
  (∀ monitor,
     is_dynamic self = true → performance_monitor self = Some monitor →
     (PerformanceMonitor.should_switch monitor = Ok false →
      should_switch_dynamically self = Ok None) ∧
     (PerformanceMonitor.should_switch monitor = Ok true →
      ∀ (approaches : list (string * value)) (before after : list string)
        (other : string),
        approaches_of (config self) = Some approaches →
        approaches.*1 = before ++ other :: after →
        (∀ a, a ∈ before → current_approach self = VStr a) →
        current_approach self ≠ VStr other →
        should_switch_dynamically self = Ok (Some other))).
Proof.
  intros Hdict. split.
  - intros Hoff. unfold should_switch_dynamically.
    rewrite (mode_is_dynamic self) by done. cbn.
    destruct Hoff as [-> | ->]; [done|]. by destruct (is_dynamic self).
  - intros monitor Hdyn Hmon. split.
    + intros Hrec. unfold should_switch_dynamically.
      rewrite (mode_is_dynamic self) by done.
      rewrite Hdyn, Hmon. cbn. by rewrite Hrec.
    + intros Hrec approaches before after other Happroaches Hkeys Hbefore Hother.
      apply available_approaches_of in Happroaches as Hav.
      rewrite (recommended_switch self monitor _ Hdyn Hmon Hrec Hav), Hkeys.
      by rewrite filter_first_differing.
Qed.

(** C8. In dynamic mode, when the monitor recommends a switch and no
    key of the approaches mapping differs from [current_approach],
    [should_switch_dynamically] raises [IndexError] instead of returning
    none; such states are reachable, with an empty approaches mapping
    and with a single registered approach that is the current one. *)
Theorem should_switch_dynamically_index_error :
  (∀ (self : t) (monitor : PerformanceMonitor.t) (available : list string),
     is_dynamic self = true →
     performance_monitor self = Some monitor →
     PerformanceMonitor.should_switch monitor = Ok true →
     get_available_approaches self = Ok available →
     (∀ a, a ∈ available → current_approach self = VStr a) →
     should_switch_dynamically self = Raise IndexError) ∧
  (∃ self,
     reachable self ∧ is_dynamic self = true ∧
     get_available_approaches self = Ok [] ∧
     should_switch_dynamically self = Raise IndexError) ∧
  (∃ self a,
     reachable self ∧ is_dynamic self = true ∧
     get_available_approaches self = Ok [a] ∧
     current_approach self = VStr a ∧
     should_switch_dynamically self = Raise IndexError).
Proof.
  split_and!.
  - intros self monitor available Hdyn Hmon Hrec Hav Hall.
    rewrite (recommended_switch self monitor _ Hdyn Hmon Hrec Hav).
    by rewrite filter_none_differing.
  - eexists. split.
    + eapply reach_record with (metrics := slow_sample).
      * eapply (reach_init (dynamic_config []) epoch_world); reflexivity.
      * reflexivity.
    + by vm_compute.
  - eexists _, _. split.
    + eapply reach_record with (metrics := slow_sample).
      * eapply (reach_switch _ epoch_world "smolvlm" "mediapipe").
        -- eapply (reach_init (dynamic_config one_approach) epoch_world);
             reflexivity.
        -- reflexivity.
      * reflexivity.
    + by vm_compute.
Qed.

End recommendation.

(** * The contracts on concrete inputs *)

Section instances.
Import GestureRecognitionEngine PerformanceMonitor.




Lemma should_switch_false_while_filling_witness :
  len (latency_sample <$> [2000; 2000]%Q) < 5 ∧
  should_switch (record_all (init ∅ 5) (latency_sample <$> [2000; 2000]%Q)) = Ok false.
Proof.
  assert (Hfew : len (latency_sample <$> [2000; 2000]%Q) < 5) by (by vm_compute).
  exact (conj Hfew (should_switch_false_while_filling ∅ 5 _ Hfew)).
Defined.



Lemma validate_config_iff_valid_witness :
  config_schema static_config ∧
  valid_config static_config ∧
  (validate_config static_config epoch_world).1 = Ok true.
Proof.
  assert (Hschema : config_schema static_config) by (by cbn).
  assert (Hvalid : valid_config static_config).
  { split_and!; [by left| |done]. intros _. eexists "smolvlm", _.
    split_and!; [reflexivity|by right|reflexivity|].
    apply list_elem_of_In. right. by left. }
  split; [done|]. split; [done|].
  destruct (validate_config_iff_valid static_config epoch_world Hschema)
    as (b & w' & -> & Hiff).
  cbn [fst]. f_equal. by apply Hiff.
Defined.

(** Outside the data model the validator accepts configurations that
    the specification's condition excludes: [dynamic.enabled] is tested
    for truthiness, and the string 'false' is truthy; the approach is
    tested with [in], and 'mediapipe' is in the string
    'xxmediapipexx'. *)
Lemma validate_config_accepts_beyond_the_specification :
  ((validate_config stringly_enabled_config epoch_world).1 = Ok true ∧
   ¬ valid_config stringly_enabled_config) ∧
  ((validate_config substring_approaches_config epoch_world).1 = Ok true ∧
   ¬ valid_config substring_approaches_config).
Proof.
  split; (split; [reflexivity|]).
  - intros (_ & _ & Hdynamic).
    by destruct (Hdynamic eq_refl) as (dynamic & [= <-] & [=]).
  - intros (_ & Hstatic & _).
    by destruct (Hstatic eq_refl) as (approach & approaches & _ & _ & [=] & _).
Qed.

Lemma should_switch_dynamically_contract_witness :
  is_dict (config (degraded_engine two_approaches (VStr "mediapipe"))) ∧
  approaches_of (config (degraded_engine two_approaches (VStr "mediapipe"))) =
    Some two_approaches ∧
  should_switch_dynamically (degraded_engine two_approaches (VStr "mediapipe")) =
    Ok (Some "smolvlm").
Proof.
  split; [exact I|]. split; [reflexivity|].
  refine (proj2 (proj2
    (should_switch_dynamically_contract
       (degraded_engine two_approaches (VStr "mediapipe")) I) _ eq_refl eq_refl)
    _ two_approaches ["mediapipe"] [] "smolvlm" eq_refl eq_refl _ _).
  - by vm_compute.
  - intros a Ha. apply list_elem_of_In in Ha. by destruct Ha as [<-|[]].
  - discriminate.
Defined.

Lemma should_switch_dynamically_index_error_witness :
  is_dynamic (degraded_engine one_approach (VStr "mediapipe")) = true ∧
  should_switch_dynamically (degraded_engine one_approach (VStr "mediapipe")) =
    Raise IndexError.
Proof.
  split; [reflexivity|].
  refine (proj1 should_switch_dynamically_index_error
    (degraded_engine one_approach (VStr "mediapipe")) _ ["mediapipe"]
    eq_refl eq_refl _ eq_refl _).
  - by vm_compute.
  - intros a Ha. apply list_elem_of_In in Ha. by destruct Ha as [<-|[]].
Defined.

Lemma rejected_switch_changes_nothing_witness :
  switch_approach "mediapipe" "tflite" (fresh_engine two_approaches, epoch_world) =
    (Ok false, (fresh_engine two_approaches,
                logged (LogInvalidApproach "tflite") epoch_world)) ∧
  current_approach (fresh_engine two_approaches) = VNone.
Proof.
  assert (Hrun :
    switch_approach "mediapipe" "tflite" (fresh_engine two_approaches, epoch_world) =
      (Ok false, (fresh_engine two_approaches,
                  logged (LogInvalidApproach "tflite") epoch_world)))
    by reflexivity.
  split; [done|].
  exact (proj1 (proj2 (rejected_switch_changes_nothing _ _ _ _ _ _ Hrun))).
Defined.


(** Behaviour at the edges of the data model. *)

(** With a window size of 0 the slice [[-0:]] is the whole list. *)
Example window_size_zero_never_trims :
  latency_ms (history (record_all (init ∅ 0) (latency_sample <$> [1; 2; 3]%Q))) =
    [1; 2; 3]%Q.
Proof. by vm_compute. Qed.

(** Samples that carry only a latency record an FPS of 0, below the
    default minimum: the scenario's monitor recommends a switch. *)
Example latency_only_samples_recommend_switch :
  should_switch scenario_monitor = Ok true.
Proof. by vm_compute. Qed.

End instances.

(** * More on the sliding windows *)

Section window_invariants.
Import PerformanceMonitor.

Lemma length_slice_from {A} (start : Z) (l k : list A) :
  length l = length k → length (slice_from start l) = length (slice_from start k).
Proof.
  intros Hlen. unfold slice_from, len. rewrite !length_drop, Hlen. done.
Qed.

Lemma length_trim (w : Z) (l k : list Q) :
  length l = length k → length (trim w l) = length (trim w k).
Proof.
  intros Hlen. unfold trim, len. rewrite Hlen.
  destruct (Z.of_nat (length k) >? w); [by apply length_slice_from | done].
Qed.

Lemma record_keeps_aligned (self : t) (metrics : gmap string Q) :
  windows_aligned (history self) → windows_aligned (history (record self metrics)).
Proof.
  intros (H1 & H2 & H3). unfold windows_aligned, record. cbn.
  split_and!; apply length_trim; rewrite !length_app; cbn; lia.
Qed.

(** X1. From its creation on, the four windows of a monitor always hold
    the same number of entries, whatever the window size and the
    samples: the cold-start guard, which looks at the latency window
    only, speaks for all four. *)
Theorem windows_stay_aligned (th : gmap string Q) (w : Z)
    (samples : list (gmap string Q)) :
  let self := record_all (init th w) samples in
  windows_aligned (history self) ∧
  (len (latency_ms (history self)) <? window_size self) =
  (len (fps (history self)) <? window_size self).
Proof.
  assert (Haligned : windows_aligned (history (record_all (init th w) samples))).
  { induction samples as [|metrics samples IH] using rev_ind; [done|].
    rewrite record_all_snoc. by apply record_keeps_aligned. }
  cbn zeta. split; [done|].
  destruct Haligned as (H1 & H2 & H3). unfold len. by rewrite H1, H2, H3.
Qed.

(** X2. With a window size of at least 1, one call of [record] leaves
    at most [window_size] entries in each window, whatever the windows
    held before. *)
Theorem record_bounds_windows (self : t) (metrics : gmap string Q) :
  1 ≤ window_size self →
  windows_bounded (record self metrics).
Proof.
  intros Hw. unfold windows_bounded, record. cbn.
  rewrite !trim_most_recent by done. unfold len.
  rewrite !length_most_recent. lia.
Qed.

Lemma record_bounds_windows_witness :
  1 ≤ window_size (init ∅ 2) ∧
  windows_bounded (record (record (record (init ∅ 2) slow_sample) slow_sample)
                          slow_sample).
Proof.
  assert (Hw : 1 ≤ window_size (record (record (init ∅ 2) slow_sample) slow_sample))
    by (cbn; lia).
  exact (conj Hw (record_bounds_windows _ slow_sample Hw)).
Defined.

Lemma most_recent_app {A} (n : nat) (l k : list A) :
  (n ≤ length k)%nat → most_recent n (l ++ k) = most_recent n k.
Proof.
  intros Hn. unfold most_recent. rewrite length_app.
  rewrite drop_app_ge by lia. f_equal. lia.
Qed.

Lemma record_all_history_from (self : t) (samples : list (gmap string Q)) :
  1 ≤ window_size self → samples ≠ [] →
  let n := Z.to_nat (window_size self) in
  history (record_all self samples) =
  mkHistory
    (most_recent n (latency_ms (history self) ++ column "latency_ms" samples))
    (most_recent n (cpu_percent (history self) ++ column "cpu_percent" samples))
    (most_recent n (memory_mb (history self) ++ column "memory_mb" samples))
    (most_recent n (fps (history self) ++ column "fps" samples)).
Proof.
  intros Hw. induction samples as [|metrics samples IH] using rev_ind; [done|].
  intros _ n. rewrite record_all_snoc. unfold record at 1.
  rewrite record_all_window_size. cbn [history latency_ms cpu_percent memory_mb fps].
  unfold column. rewrite !fmap_app, !app_assoc. cbn [fmap list_fmap].
  rewrite !trim_most_recent by done. fold n.
  destruct samples as [|m0 samples0]; [by rewrite !app_nil_r|].
  rewrite IH by done. cbn [history latency_ms cpu_percent memory_mb fps].
  fold n. unfold column.
  by rewrite !most_recent_snoc by lia.
Qed.

(** X3. The monitor forgets: once it has recorded [window_size] samples
    or more (window size at least 1), it is the monitor that a fresh one
    with the same thresholds and window size becomes on those samples,
    whatever it held before; so is its recommendation. *)
Theorem monitor_forgets_old_samples (self : t) (samples : list (gmap string Q)) :
  1 ≤ window_size self →
  window_size self ≤ len samples →
  record_all self samples =
    record_all (init (thresholds self) (window_size self)) samples ∧
  should_switch (record_all self samples) =
    should_switch (record_all (init (thresholds self) (window_size self)) samples).
Proof.
  intros Hw Hlen.
  enough (record_all self samples =
          record_all (init (thresholds self) (window_size self)) samples) as ->
    by done.
  assert (Hne : samples ≠ []).
  { intros ->. unfold len in Hlen. cbn in Hlen. lia. }
  pose proof (record_all_history_from self samples Hw Hne) as Hh.
  pose proof (record_all_history (thresholds self) (window_size self) samples Hw)
    as Hfresh.
  cbn zeta in Hh.
  rewrite !most_recent_app in Hh
    by (unfold column; rewrite length_fmap; unfold len in Hlen; lia).
  rewrite <- Hfresh in Hh.
  pose proof (record_all_thresholds self samples) as Hth.
  pose proof (record_all_window_size self samples) as Hws.
  pose proof (record_all_thresholds (init (thresholds self) (window_size self)) samples)
    as Hth'.
  pose proof (record_all_window_size (init (thresholds self) (window_size self)) samples)
    as Hws'.
  destruct (record_all self samples), (record_all (init _ _) samples).
  cbn in *. congruence.
Qed.

Lemma monitor_forgets_old_samples_witness :
  1 ≤ window_size scenario_monitor ∧
  window_size scenario_monitor ≤ len (replicate 5 good_sample) ∧
  should_switch (record_all scenario_monitor (replicate 5 good_sample)) = Ok false.
Proof.
  assert (Hw : 1 ≤ window_size scenario_monitor) by (by vm_compute).
  assert (Hlen : window_size scenario_monitor ≤ len (replicate 5 good_sample))
    by (by vm_compute).
  split_and!; [done..|].
  rewrite (proj2 (monitor_forgets_old_samples scenario_monitor
                    (replicate 5 good_sample) Hw Hlen)).
  by vm_compute.
Defined.

End window_invariants.

(** * Window sizes below 1 *)

Section degenerate_windows.
Import PerformanceMonitor.

(** X6. With a window size of 0 or less the cold-start guard never
    holds: a monitor that has recorded nothing averages every metric to
    0 and, for a positive minimum FPS (such as the default 0.8),
    recommends a switch at once. *)
Theorem nonpositive_window_switches_at_once (th : gmap string Q) (w : Z) :
  w ≤ 0 →
  (0 < get_float th "min_fps" (8 # 10))%Q →
  should_switch (init th w) = Ok true.
Proof.
  intros Hw Hfps. unfold should_switch. cbn.
  destruct (_ <? w) eqn:Hcold.
  { apply Z.ltb_lt in Hcold. unfold len in Hcold. cbn in Hcold. lia. }
  apply Qltb_lt in Hfps. rewrite Hfps.
  by repeat case_match.
Qed.

Lemma nonpositive_window_switches_at_once_witness :
  0 ≤ 0 ∧ should_switch (init ∅ 0) = Ok true.
Proof.
  split; [done|].
  apply nonpositive_window_switches_at_once; [done | by vm_compute].
Defined.

Lemma trim_negative (w : Z) (x : Q) : w < 0 → trim w [x] = [].
Proof.
  intros Hw. unfold trim, slice_from, len. cbn [length].
  replace (Z.of_nat 1 >? w) with true by (symmetry; apply Z.gtb_lt; lia).
  replace (- w <? 0) with false by (symmetry; apply Z.ltb_ge; lia).
  replace (Z.to_nat (Z.min (- w) (Z.of_nat 1))) with 1%nat by lia. done.
Qed.

(** X7. A window size of 0 turns trimming off: every window is the
    whole column of recorded values (the slice [[-0:]] is the whole
    list).  A negative window size leaves every window empty after
    every sample. *)
Theorem degenerate_window_sizes (th : gmap string Q)
    (samples : list (gmap string Q)) :
  history (record_all (init th 0) samples) = columns samples ∧
  ∀ w, w < 0 → history (record_all (init th w) samples) = mkHistory [] [] [] [].
Proof.
  split.
  - induction samples as [|metrics samples IH] using rev_ind; [done|].
    rewrite record_all_snoc. unfold record.
    rewrite record_all_window_size, IH. cbn.
    rewrite !trim_0. unfold columns, column. by rewrite !fmap_app.
  - intros w Hw. induction samples as [|metrics samples IH] using rev_ind; [done|].
    rewrite record_all_snoc. unfold record.
    rewrite record_all_window_size, IH. cbn.
    by rewrite !trim_negative.
Qed.

End degenerate_windows.

(** * The validator's output *)

Section validator_output.

(** What a refusal or a failure of [validate_config] leaves on standard
    output. *)
Lemma validate_config_stdout (config : value) (w : World) :
  match (validate_config config w).1 with
  | Ok true => True
  | Ok false => ∃ p, stdout (validate_config config w).2 = stdout w ++ [p]
  | Raise _ => stdout (validate_config config w).2 = stdout w
  end.
Proof.
  unfold validate_config, mbind, M_bind, mret, M_ret, lift, print, get, str_in.
  repeat (case_match; simplify_eq; cbn [fst snd stdout negb] in *); eauto.
Qed.

(** X8. [validate_config] acts on standard output only: the clock and
    the log are untouched; it prints nothing when it returns true or
    raises, and exactly one diagnostic when it returns false. *)
Theorem validate_config_prints_once (config : value) (w : World) :
  let r := validate_config config w in
  clock r.2 = clock w ∧ ticks r.2 = ticks w ∧ log r.2 = log w ∧
  match r.1 with
  | Ok true => stdout r.2 = stdout w
  | Ok false => ∃ p, stdout r.2 = stdout w ++ [p]
  | Raise _ => stdout r.2 = stdout w
  end.
Proof.
  unfold validate_config, mbind, M_bind, mret, M_ret, lift, print, get, str_in.
  cbn zeta.
  repeat (case_match; simplify_eq; cbn [fst snd clock ticks log stdout negb] in *);
    split_and!; eauto.
Qed.

End validator_output.

(** * The engine from its creation on *)

Section engine_invariants.
Import GestureRecognitionEngine.

Local Ltac run :=
  unfold switch_approach, mbind, M_bind, mret, M_ret, lift, get_self,
    in_world, modify_self, logger, time_time; cbn.

Lemma init_spec (config : value) (self : t) :
  init config = Ok self →
  config = GestureRecognitionEngine.config self ∧
  is_dict config ∧
  current_approach self = VNone ∧
  (if is_dynamic self then
     last_switch_time self = Some 0%Q ∧
     is_Some (switch_cooldown self) ∧
     ∃ th w, performance_monitor self = Some (PerformanceMonitor.init th w)
   else
     last_switch_time self = None ∧ switch_cooldown self = None ∧
     performance_monitor self = None).
Proof.
  destruct config as [| | | | | |items]; try done.
  unfold init, mbind, result_bind, mret, result_ret.
  destruct (setup_logging (VDict items)); [|done]. cbn [get].
  assert (Hmode : ∀ self' : t,
            GestureRecognitionEngine.config self' = VDict items →
            is_dynamic self' =
              eq_str (default VNone (dict_lookup items "mode")) "dynamic").
  { intros self' Hc. pose proof (mode_is_dynamic self') as E.
    unfold mode_is in E. rewrite Hc in E. cbn in E.
    specialize (E I). by injection E as <-. }
  destruct (eq_str _ "dynamic") eqn:Hdyn; intros Hinit.
  - repeat match type of Hinit with
           | context [match ?x with _ => _ end] => destruct x eqn:?; try done
           end.
    injection Hinit as <-. rewrite Hmode by reflexivity. cbn. split_and!; eauto.
  - injection Hinit as <-. rewrite Hmode by reflexivity. done.
Qed.

Lemma switch_frame (self : t) (w : World) (from_approach to_approach : string) :
  let r := switch_approach from_approach to_approach (self, w) in
  config r.2.1 = config self ∧
  performance_monitor r.2.1 = performance_monitor self ∧
  switch_cooldown r.2.1 = switch_cooldown self ∧
  (is_Some (last_switch_time self) → is_Some (last_switch_time r.2.1)).
Proof.
  run. repeat (case_match; simplify_eq; cbn in *); split_and!; eauto.
Qed.

Lemma is_dynamic_config (self self' : t) :
  config self' = config self → is_dynamic self' = is_dynamic self.
Proof. unfold is_dynamic. by intros ->. Qed.

Lemma reachable_invariant (self : t) :
  reachable self → is_dict (config self) ∧ attributes_set self.
Proof.
  induction 1 as [config w w' self Hvalid Hinit
                  | self monitor metrics Hreach [IHd IHa] Hmon
                  | self w f t r self' w' Hreach [IHd IHa] Hrun].
  - apply init_spec in Hinit as (<- & Hdict & _ & Hattrs).
    split; [done|]. unfold attributes_set.
    destruct (is_dynamic self).
    + destruct Hattrs as (-> & Hcd & th & ws & ->). eauto.
    + by destruct Hattrs as (_ & _ & ->).
  - split; [done|]. unfold attributes_set in *.
    rewrite (is_dynamic_config self) by done.
    destruct (is_dynamic self); cbn; [|congruence].
    destruct IHa as (? & ? & ?). eauto.
  - pose proof (switch_frame self w f t) as Hframe. cbn zeta in Hframe.
    rewrite Hrun in Hframe. cbn in Hframe.
    destruct Hframe as (Hc & Hm & Hcd & Hlast).
    split; [by rewrite Hc|]. unfold attributes_set in *.
    rewrite (is_dynamic_config self) by done.
    destruct (is_dynamic self); [|congruence].
    destruct IHa as (? & ? & ?). rewrite Hm, Hcd. eauto.
Qed.

Lemma validate_true_mode (config : value) (w w' : World) :
  validate_config config w = (Ok true, w') →
  ∃ items s,
    config = VDict items ∧ dict_lookup items "mode" = Some (VStr s) ∧
    (s = "static" ∨ s = "dynamic").
Proof.
  unfold validate_config, mbind, M_bind, mret, M_ret, lift, print, in_strs,
    existsb, eq_str, get.
  destruct config as [| | | | | |items]; try done.
  destruct (dict_lookup items "mode") as [mode|] eqn:Hmode; cbn; [|done].
  destruct mode as [| | | |s| |]; try done.
  destruct (String.eqb_spec s "static") as [->|Hs]; [eauto 10|].
  destruct (String.eqb_spec s "dynamic") as [->|Hd]; [eauto 10|].
  done.
Qed.






(** X10. What [should_switch_dynamically] recommends is a key of the
    approaches mapping and differs from [current_approach]: the
    recommendation always passes the registration check of
    [switch_approach]. *)
Theorem recommendation_is_registered (self : t) (other : string) :
  should_switch_dynamically self = Ok (Some other) →
  ∃ available,
    get_available_approaches self = Ok available ∧
    other ∈ available ∧
    str_in_list other available = true ∧
    current_approach self ≠ VStr other.
Proof.
  unfold should_switch_dynamically, mbind, result_bind, mret, result_ret.
  destruct (mode_is self "dynamic") as [[]|]; [|done..].
  destruct (performance_monitor self) as [monitor|]; [|done].
  destruct (PerformanceMonitor.should_switch monitor) as [[]|]; [|done..].
  destruct (get_available_approaches self) as [available|]; [|done].
  destruct (List.filter _ available) as [|x rest] eqn:Hfilter; [done|].
  cbn. intros [= ->].
  assert (Hin : In other (List.filter
            (λ a, negb (eq_str (current_approach self) a)) available)).
  { rewrite Hfilter. by left. }
  apply filter_In in Hin as [Hin Hneq].
  apply list_elem_of_In in Hin.
  exists available. split_and!; [done..| |].
  - by apply str_in_list_elem.
  - intros Heq. apply eq_str_true in Heq. by rewrite Heq in Hneq.
Qed.

Lemma recommendation_is_registered_witness :
  should_switch_dynamically (degraded_engine two_approaches (VStr "mediapipe")) =
    Ok (Some "smolvlm") ∧
  ∃ available,
    get_available_approaches (degraded_engine two_approaches (VStr "mediapipe")) =
      Ok available ∧
    "smolvlm" ∈ available ∧
    str_in_list "smolvlm" available = true ∧
    current_approach (degraded_engine two_approaches (VStr "mediapipe")) ≠
      VStr "smolvlm".
Proof.
  assert (Hrec : should_switch_dynamically
                   (degraded_engine two_approaches (VStr "mediapipe")) =
                 Ok (Some "smolvlm")) by (by vm_compute).
  exact (conj Hrec (recommendation_is_registered _ _ Hrec)).
Defined.



(** X12. [switch_approach] never looks at [from_approach] except to
    log it: the returned value and the engine it leaves are the same for
    any two source names (the source is not compared with
    [current_approach]). *)
Theorem switch_ignores_from_approach (self : t) (w : World)
    (from1 from2 to_approach : string) :
  (switch_approach from1 to_approach (self, w)).1 =
    (switch_approach from2 to_approach (self, w)).1 ∧
  (switch_approach from1 to_approach (self, w)).2.1 =
    (switch_approach from2 to_approach (self, w)).2.1.
Proof.
  run. by repeat (case_match; simplify_eq; cbn in * ).
Qed.

End engine_invariants.

(** * Running an approach *)

Section execution.
Import GestureRecognitionEngine Execution.

Local Ltac exec :=
  unfold execute, execute_dynamic_mode, execute_static_mode, run_entry_point,
    handle, mbind, Exec_bind, mret, Exec_ret, of_result, exits, hangs, this,
    assign, emit; cbn.

Lemma calls_app (j k : list event) : calls (j ++ k) = calls j ++ calls k.
Proof. apply omap_app. Qed.

Lemma imports_app (j k : list event) : imports (j ++ k) = imports j ++ imports k.
Proof. apply omap_app. Qed.

(** What the guard and the [try] statement add to the journal. *)
Lemma run_entry_point_journal (modules : Modules)
    (approach module_name main_function : value) (s : Run) :
  ∃ new,
    (run_entry_point modules approach module_name main_function s).2 =
      (s.1, s.2 ++ new) ∧
    (calls new = [] ∨
     ∃ m f, module_name = VStr m ∧ main_function = VStr f ∧ calls new = [(m, f)]) ∧
    (imports new = [] ∨ ∃ m, module_name = VStr m ∧ imports new = [m]).
Proof.
  destruct s as [self journal]. exec.
  repeat (case_match; simplify_eq; cbn in * ).
  all: rewrite <- ?app_assoc; cbn.
  all: eexists; split; [reflexivity|]; cbn; split; eauto 10.
Qed.

Lemma read_descriptor_entry_point (self : t) (approach module_name main_function : value)
    (m : string) :
  get (config self) "approach" VNone = Ok approach →
  read_descriptor self approach = Ok (module_name, main_function) →
  module_name = VStr m →
  entry_module (config self) = Some m ∧
  ∀ f, main_function = VStr f → entry_point (config self) = Some (m, f).
Proof.
  unfold read_descriptor, entry_module, entry_point, field, get, get_key,
    mbind, result_bind, mret, result_ret.
  destruct (config self) as [| | | | | |items]; [done..|].
  intros [= <-].
  assert (Hempty : ∀ mn mf : value,
            Ok (default VNone (dict_lookup [] "module"),
                default (VStr "main") (dict_lookup [] "main_function")) =
              Ok (mn, mf) → mn = VStr m → False).
  { intros mn mf [= <- <-]. done. }
  destruct (dict_lookup items "approaches") as [approaches|]; cbn.
  - destruct approaches as [| | | | | |aitems]; [done..|].
    destruct (dict_lookup items "approach") as [approach|]; cbn.
    + destruct approach as [| | | |a| |]; try done;
        try (intros Hread Hm; exfalso; by eapply Hempty).
      destruct (dict_lookup aitems a) as [descriptor|]; cbn.
      * destruct descriptor as [| | | | | |ditems]; try (by cbn).
        intros [= <- <-] Hm.
        destruct (dict_lookup ditems "module") as [module_name|]; [|done].
        cbn in Hm. subst module_name. split; [done|].
        by intros f ->.
      * intros Hread Hm; exfalso; by eapply Hempty.
    + intros Hread Hm; exfalso; by eapply Hempty.
  - destruct (dict_lookup items "approach") as [approach|]; cbn.
    + destruct approach; try done; intros Hread Hm; exfalso; by eapply Hempty.
    + intros Hread Hm; exfalso; by eapply Hempty.
Qed.

(** X13. [execute_static_mode] only adds to the journal.  It imports at
    most one module, the one that the descriptor of the configured
    approach names, and calls at most one function, the entry point of
    that descriptor; nothing else is run as a fallback. *)
Theorem static_mode_runs_one_entry_point (modules : Modules) (self : t)
    (journal : list event) :
  ∃ new,
    (execute_static_mode modules (self, journal)).2.2 = journal ++ new ∧
    (calls new = [] ∨
     ∃ m f, entry_point (config self) = Some (m, f) ∧ calls new = [(m, f)]) ∧
    (imports new = [] ∨
     ∃ m, entry_module (config self) = Some m ∧ imports new = [m]).
Proof.
  unfold execute_static_mode, mbind, Exec_bind, of_result, this, assign, emit.
  cbn [fst snd].
  destruct (get (config self) "approach" VNone) as [approach|] eqn:Happroach.
  2: { exists []. rewrite app_nil_r. cbn. eauto. }
  destruct (read_descriptor self approach) as [[module_name main_function]|]
    eqn:Hread.
  2: { exists [LogStatic approach]. cbn. eauto. }
  cbn [fst snd].
  destruct (run_entry_point_journal modules approach module_name main_function
              (set_current_approach approach self, journal ++ [LogStatic approach]))
    as (new & Hrun & Hcalls & Himports).
  exists (LogStatic approach :: new).
  rewrite Hrun. cbn [fst snd]. rewrite <- app_assoc. split; [done|].
  change (LogStatic approach :: new) with ([LogStatic approach] ++ new).
  rewrite calls_app, imports_app. cbn [calls imports omap app].
  split.
  - destruct Hcalls as [?|(m & f & -> & -> & ?)]; [by left|right].
    exists m, f. split; [|done].
    by eapply (read_descriptor_entry_point self).
  - destruct Himports as [?|(m & -> & ?)]; [by left|right].
    exists m. split; [|done].
    by eapply (read_descriptor_entry_point self).
Qed.

Lemma static_mode_witness_journal :
  (execute_static_mode demo_modules (static_engine "mediapipe", [])).2.2 =
    [LogStatic (VStr "mediapipe"); LogImporting (VStr "gesture_recognition");
     Imported "gesture_recognition"; LogExecuting "gesture_recognition" "main";
     Called "gesture_recognition" "main"].
Proof. reflexivity. Qed.






Lemma static_mode_ignores_current (modules : Modules) (self : t) (a : value)
    (journal : list event) :
  is_dict (config self) →
  execute_static_mode modules (set_current_approach a self, journal) =
  execute_static_mode modules (self, journal).
Proof.
  intros Hdict.
  unfold execute_static_mode, read_descriptor, mbind, Exec_bind, of_result,
    this, assign, emit.
  cbn [fst snd config set_current_approach].
  destruct (config self) as [| | | | | |items] eqn:Hc; try done.
Qed.

Lemma static_mode_engine (modules : Modules) (self : t) (journal : list event) :
  ∃ current,
    (execute_static_mode modules (self, journal)).2.1 =
      set_current_approach current self.
Proof.
  unfold execute_static_mode, mbind, Exec_bind, of_result, this, assign, emit.
  cbn [fst snd].
  destruct (get (config self) "approach" VNone) as [approach|].
  - destruct (read_descriptor self approach) as [descriptor|].
    + destruct (run_entry_point_journal modules approach descriptor.1 descriptor.2
                  (set_current_approach approach self,
                   journal ++ [LogStatic approach])) as (new & Hrun & _).
      exists approach.
      destruct (run_entry_point _ _ _ _ _) as [[] ?]; cbn in *; by rewrite Hrun.
    + by exists approach.
  - exists (current_approach self). by destruct self.
Qed.

Lemma dynamic_is_static (modules : Modules) (self : t) (journal : list event) :
  is_dict (config self) →
  execute_dynamic_mode modules (self, journal) =
    execute_static_mode modules
      (self,
       journal ++
         [LogDynamicStart (default (VStr "mediapipe") (field (config self) "approach"));
          LogWillSwitch; LogDynamicLimited; LogDynamicNeedsChanges]) ∧
  ∃ current,
    (execute_dynamic_mode modules (self, journal)).2.1 =
      set_current_approach current self.
Proof.
  intros Hdict.
  assert (Heq : execute_dynamic_mode modules (self, journal) =
    execute_static_mode modules
      (self,
       journal ++
         [LogDynamicStart (default (VStr "mediapipe") (field (config self) "approach"));
          LogWillSwitch; LogDynamicLimited; LogDynamicNeedsChanges])).
  { unfold execute_dynamic_mode, mbind, Exec_bind, of_result, this, assign, emit.
    cbn [fst snd]. unfold get, field.
    destruct (config self) as [| | | | | |items] eqn:Hc; try done.
    rewrite <- !app_assoc. cbn [app].
    by rewrite static_mode_ignores_current by (by rewrite Hc). }
  split; [done|]. rewrite Heq. apply static_mode_engine.
Qed.

(** X15. Dynamic mode is static mode with four more log lines: for a
    configuration that is a mapping, [execute_dynamic_mode] ends as
    [execute_static_mode] does on the same engine, and leaves the same
    engine.  It changes [current_approach] only: the monitor, the switch
    time and the cooldown are as they were (no sample is recorded, no
    switch is made). *)
Theorem dynamic_mode_is_static_mode (modules : Modules) (self : t)
    (journal : list event) :
  is_dict (config self) →
  execute_dynamic_mode modules (self, journal) =
    execute_static_mode modules
      (self,
       journal ++
         [LogDynamicStart (default (VStr "mediapipe") (field (config self) "approach"));
          LogWillSwitch; LogDynamicLimited; LogDynamicNeedsChanges]) ∧
  ∃ current,
    (execute_dynamic_mode modules (self, journal)).2.1 =
      set_current_approach current self.
Proof. apply dynamic_is_static. Qed.

Lemma dynamic_mode_is_static_mode_witness :
  is_dict (config (fresh_engine two_approaches)) ∧
  ∃ current,
    (execute_dynamic_mode demo_modules (fresh_engine two_approaches, [])).2.1 =
      set_current_approach current (fresh_engine two_approaches).
Proof.
  exact (conj I (proj2 (dynamic_mode_is_static_mode demo_modules
                          (fresh_engine two_approaches) [] I))).
Defined.

Lemma dynamic_without_approach (modules : Modules) (self : t)
    (journal : list event) (items : list (string * value)) :
  config self = VDict items →
  dict_lookup items "approach" = None →
  field_ok items "approaches" is_dict →
  execute_dynamic_mode modules (self, journal) =
    (Done tt,
     (set_current_approach VNone self,
      journal ++
        [LogDynamicStart (VStr "mediapipe"); LogWillSwitch; LogDynamicLimited;
         LogDynamicNeedsChanges; LogStatic VNone; LogNoModule VNone])).
Proof.
  intros Hc Hnone Happroaches. unfold field_ok in Happroaches.
  unfold execute_dynamic_mode, execute_static_mode, read_descriptor,
    run_entry_point, mbind, Exec_bind, result_bind, mret, result_ret, of_result,
    this, assign, emit.
  cbn [fst snd config set_current_approach]. rewrite Hc. cbn [get].
  rewrite Hnone. cbn [default].
  destruct (dict_lookup items "approaches") as [approaches|]; cbn.
  - destruct approaches; try done. cbn. by rewrite <- !app_assoc.
  - by rewrite <- !app_assoc.
Qed.

(** X16. In dynamic mode without an [approach] key the default
    'mediapipe' is logged but never run: [execute_static_mode] reads the
    key again without the default, so [current_approach] ends as [None],
    no module is imported and nothing is called. *)
Theorem dynamic_default_approach_never_runs (modules : Modules) (self : t)
    (journal : list event) (items : list (string * value)) :
  config self = VDict items →
  dict_lookup items "approach" = None →
  field_ok items "approaches" is_dict →
  execute_dynamic_mode modules (self, journal) =
    (Done tt,
     (set_current_approach VNone self,
      journal ++
        [LogDynamicStart (VStr "mediapipe"); LogWillSwitch; LogDynamicLimited;
         LogDynamicNeedsChanges; LogStatic VNone; LogNoModule VNone])).
Proof. apply dynamic_without_approach. Qed.

Lemma dynamic_default_approach_never_runs_witness :
  init (VDict keyless_items) = Ok keyless_engine ∧
  dict_lookup keyless_items "approach" = None ∧
  execute_dynamic_mode demo_modules (keyless_engine, []) =
    (Done tt,
     (set_current_approach VNone keyless_engine,
      [] ++
        [LogDynamicStart (VStr "mediapipe"); LogWillSwitch; LogDynamicLimited;
         LogDynamicNeedsChanges; LogStatic VNone; LogNoModule VNone])).
Proof.
  split_and!; [reflexivity..|].
  exact (dynamic_default_approach_never_runs demo_modules keyless_engine []
           keyless_items eq_refl eq_refl I).
Defined.

Lemma execute_dispatch (modules : Modules) (self : t) (journal : list event)
    (w w' : World) :
  validate_config (config self) w = (Ok true, w') →
  execute modules (self, journal) =
    if is_dynamic self then execute_dynamic_mode modules (self, journal)
    else execute_static_mode modules (self, journal).
Proof.
  intros Hvalid.
  apply validate_true_mode in Hvalid as (items & s & Hc & Hmode & Hs).
  unfold execute at 1, is_dynamic, field, mbind, Exec_bind, of_result, this.
  cbn [fst snd]. rewrite Hc. cbn [get]. rewrite Hmode. cbn [default eq_str].
  by destruct Hs as [-> | ->].
Qed.

(** X17. On a validated configuration [execute] dispatches: to
    [execute_dynamic_mode] in dynamic mode and to [execute_static_mode]
    otherwise; its unknown-mode branch is out of reach.  On a mapping
    whose mode is neither 'static' nor 'dynamic' it logs the mode and
    exits with status 1, touching nothing else. *)
Theorem execute_dispatches_on_mode (modules : Modules) (self : t)
    (journal : list event) :
  (∀ w w', validate_config (config self) w = (Ok true, w') →
     execute modules (self, journal) =
       if is_dynamic self then execute_dynamic_mode modules (self, journal)
       else execute_static_mode modules (self, journal)) ∧
  (∀ items,
     config self = VDict items →
     in_strs (default VNone (dict_lookup items "mode")) ["static"; "dynamic"] = false →
     execute modules (self, journal) =
       (Exits (SystemExit 1),
        (self, journal ++ [LogUnknownMode (default VNone (dict_lookup items "mode"))]))).
Proof.
  split.
  - intros w w' Hvalid. by eapply execute_dispatch.
  - intros items Hc Hmode.
    unfold execute, mbind, Exec_bind, of_result, this, emit, exits.
    cbn [fst snd]. rewrite Hc. cbn [get].
    unfold in_strs in Hmode. cbn [existsb] in Hmode.
    apply orb_false_elim in Hmode as [-> Hmode].
    apply orb_false_elim in Hmode as [-> _]. done.
Qed.

Lemma execute_dispatches_on_mode_witness :
  validate_config (config (static_engine "mediapipe")) epoch_world =
    (Ok true, epoch_world) ∧
  execute demo_modules (static_engine "mediapipe", []) =
    execute_static_mode demo_modules (static_engine "mediapipe", []).
Proof.
  assert (Hvalid : validate_config (config (static_engine "mediapipe")) epoch_world =
                   (Ok true, epoch_world)) by reflexivity.
  exact (conj Hvalid
           (proj1 (execute_dispatches_on_mode demo_modules
                     (static_engine "mediapipe") []) _ _ Hvalid)).
Defined.

(** X18. [main] runs no foreign code on a configuration file that does
    not hold a valid configuration.  When the file is missing or is not
    JSON it prints one line and exits with status 1; when reading it
    fails otherwise the exception leaves [main] and nothing is printed;
    when [validate_config] returns false, its diagnostic is printed,
    then 'Configuration validation failed', and [main] exits with
    status 1; when [validate_config] raises, the exception leaves
    [main].  In none of these runs is a module imported or a function
    called. *)
Theorem main_refuses_bad_configuration (file : config_file) (modules : Modules)
    (w : World) (journal : list event) :
  (∀ config, file = Holds config → (validate_config config w).1 ≠ Ok true) →
  calls (main file modules (w, journal)).2.2 = calls journal ∧
  imports (main file modules (w, journal)).2.2 = imports journal ∧
  match file with
  | FileNotFound =>
      main file modules (w, journal) =
        (Exits (SystemExit 1), (w, journal ++ [Printed PrintConfigNotFound]))
  | InvalidJSON =>
      main file modules (w, journal) =
        (Exits (SystemExit 1), (w, journal ++ [Printed PrintInvalidJSON]))
  | Unreadable e => main file modules (w, journal) = (Failed e, (w, journal))
  | Holds config =>
      match (validate_config config w).1 with
      | Ok _ =>
          (main file modules (w, journal)).1 = Exits (SystemExit 1) ∧
          (main file modules (w, journal)).2.2 =
            journal ++ [Printed PrintValidationFailed] ∧
          ∃ diagnostic,
            stdout (main file modules (w, journal)).2.1 = stdout w ++ [diagnostic]
      | Raise e =>
          (main file modules (w, journal)).1 = Failed e ∧
          (main file modules (w, journal)).2.2 = journal ∧
          stdout (main file modules (w, journal)).2.1 = stdout w
      end
  end.
Proof.
  intros Hbad.
  unfold main, load_config, validating, say, exits, fails, mbind, Exec_bind,
    mret, Exec_ret.
  destruct file as [| |e|config].
  1-3: cbn; rewrite ?calls_app, ?imports_app; cbn; by rewrite ?app_nil_r.
  specialize (Hbad config eq_refl).
  pose proof (validate_config_stdout config w) as Hout.
  cbn [fst snd].
  destruct (validate_config config w) as [[[]|e] w']; cbn in *; [done| |].
  - rewrite calls_app, imports_app. cbn. by rewrite !app_nil_r.
  - done.
Qed.

Lemma main_refuses_bad_configuration_witness :
  (validate_config (VDict [("mode", VStr "turbo")]) epoch_world).1 = Ok false ∧
  main (Holds (VDict [("mode", VStr "turbo")])) demo_modules (epoch_world, []) =
    (Exits (SystemExit 1),
     (mkWorld (clock epoch_world) 0 [] [PrintBadMode],
      [Printed PrintValidationFailed])) ∧
  calls (main (Holds (VDict [("mode", VStr "turbo")])) demo_modules
           (epoch_world, [])).2.2 = calls [].
Proof.
  split; [reflexivity|]. split; [reflexivity|].
  refine (proj1 (main_refuses_bad_configuration
                   (Holds (VDict [("mode", VStr "turbo")])) demo_modules
                   epoch_world [] _)).
  intros config [= <-]. discriminate.
Defined.

(** A configuration file whose bytes do not decode: the exception
    leaves [main]. *)
Example undecodable_configuration_file :
  main (Unreadable UnicodeDecodeError) demo_modules (epoch_world, []) =
    (Failed UnicodeDecodeError, (epoch_world, [])).
Proof. reflexivity. Qed.

(** [main] past its start-up: the banner, then [execute], then the
    handlers of the [try] statement. *)
Lemma main_after_start_up (config : value) (modules : Modules) (w w' : World)
    (journal : list event) (engine : t) :
  validate_config config w = (Ok true, w') →
  init config = Ok engine →
  ∃ banner tail,
    calls banner = [] ∧ imports banner = [] ∧
    calls tail = [] ∧ imports tail = [] ∧
    main (Holds config) modules (w, journal) =
      (match (execute modules (engine, journal ++ banner)).1 with
       | Exits KeyboardInterrupt => Done tt
       | Exits b => Exits b
       | Hangs => Hangs
       | _ => Done tt
       end,
       (w', (execute modules (engine, journal ++ banner)).2.2 ++ tail)).
Proof.
  intros Hvalid Hinit.
  destruct (validate_true_mode _ _ _ Hvalid) as (items & s & -> & Hmode & Hs).
  unfold main, load_config, validating, on_engine, say, print_exc, upper_of,
    mbind, Exec_bind, mret, Exec_ret, of_result, exits, hangs.
  generalize (execute modules). intros run.
  cbn [fst snd]. rewrite Hvalid, Hinit. cbn. rewrite Hmode. cbn.
  destruct Hs as [-> | ->]; cbn.
  - eexists [Printed PrintRule; Printed PrintTitle; Printed PrintRule;
             Printed (PrintMode "STATIC");
             Printed (PrintApproach
                        (default (VStr "unknown") (dict_lookup items "approach")));
             Printed PrintRule; Printed PrintBlank].
    rewrite <- !app_assoc. cbn [app].
    destruct (run _) as [[[]|e|[code| |]|] [engine' journal']]; cbn.
    + exists []. by rewrite app_nil_r.
    + exists [Printed (PrintError e); Traceback]. by rewrite <- app_assoc.
    + exists []. by rewrite app_nil_r.
    + by exists [Printed PrintInterrupted].
    + exists []. by rewrite app_nil_r.
    + exists []. by rewrite app_nil_r.
  - eexists [Printed PrintRule; Printed PrintTitle; Printed PrintRule;
             Printed (PrintMode "DYNAMIC");
             Printed (PrintInitialApproach
                        (default (VStr "unknown") (dict_lookup items "approach")));
             Printed PrintDynamicEnabled; Printed PrintRule; Printed PrintBlank].
    rewrite <- !app_assoc. cbn [app].
    destruct (run _) as [[[]|e|[code| |]|] [engine' journal']]; cbn.
    + exists []. by rewrite app_nil_r.
    + exists [Printed (PrintError e); Traceback]. by rewrite <- app_assoc.
    + exists []. by rewrite app_nil_r.
    + by exists [Printed PrintInterrupted].
    + exists []. by rewrite app_nil_r.
    + exists []. by rewrite app_nil_r.
Qed.







(** X21. A valid configuration may run nothing: in dynamic mode
    validation does not ask for an [approach] key, and without one
    [main] prints its banner, logs that no module is specified and
    returns normally, having imported and called nothing. *)
Theorem valid_configuration_may_run_nothing (items : list (string * value))
    (modules : Modules) (w w' : World) (journal : list event) (engine : t) :
  validate_config (VDict items) w = (Ok true, w') →
  init (VDict items) = Ok engine →
  is_dynamic engine = true →
  dict_lookup items "approach" = None →
  field_ok items "approaches" is_dict →
  (main (Holds (VDict items)) modules (w, journal)).1 = Done tt ∧
  calls (main (Holds (VDict items)) modules (w, journal)).2.2 = calls journal ∧
  imports (main (Holds (VDict items)) modules (w, journal)).2.2 = imports journal.
Proof.
  intros Hvalid Hinit Hdyn Hnone Happroaches.
  destruct (main_after_start_up _ modules w w' journal engine Hvalid Hinit)
    as (banner & tail & Hb1 & Hb2 & Ht1 & Ht2 & ->).
  assert (Hconfig : GestureRecognitionEngine.config engine = VDict items).
  { apply init_spec in Hinit. by destruct Hinit as (-> & _). }
  rewrite (execute_dispatch modules engine (journal ++ banner) w w')
    by by rewrite Hconfig.
  rewrite Hdyn.
  rewrite (dynamic_without_approach modules engine (journal ++ banner) items)
    by done.
  cbn [fst snd].
  rewrite !calls_app, !imports_app, Hb1, Hb2, Ht1, Ht2. cbn.
  by rewrite !app_nil_r.
Qed.

Lemma valid_configuration_may_run_nothing_witness :
  validate_config (VDict keyless_items) epoch_world = (Ok true, epoch_world) ∧
  (main (Holds (VDict keyless_items)) demo_modules (epoch_world, [])).1 = Done tt ∧
  calls (main (Holds (VDict keyless_items)) demo_modules (epoch_world, [])).2.2 =
    calls [] ∧
  imports (main (Holds (VDict keyless_items)) demo_modules (epoch_world, [])).2.2 =
    imports [].
Proof.
  assert (Hvalid : validate_config (VDict keyless_items) epoch_world =
                   (Ok true, epoch_world)) by reflexivity.
  exact (conj Hvalid
           (valid_configuration_may_run_nothing keyless_items demo_modules
              epoch_world epoch_world [] keyless_engine Hvalid eq_refl eq_refl
              eq_refl I)).
Defined.

End execution.
